(** * PREVENT risk equations: a shallow embedding of [prevent-equations.ts]

    The engine of the calculator is the TypeScript module
    [src/lib/prevent-equations.ts]: three numeric helpers ([sdicat],
    [mmol_conversion], [adjust]), the two equation sets [preventBase] and
    [preventFull], and the selector [calculatePreventRisk].

    Numbers are modelled as the real numbers of the Standard Library: the
    arithmetic of the source is read as exact arithmetic ([Math.exp] is [exp],
    [Math.log] is [ln], [Math.min]/[Math.max] are [Rmin]/[Rmax]).  Rounding,
    overflow and NaN of IEEE doubles are outside this model.  An optional
    property ([tc?: number]) is an [option R], [None] standing for
    [undefined]; a nullable score ([number | null]) is an [option R], [None]
    standing for [null]. *)

From Stdlib Require Import Reals Lra Bool.
From Stdlib Require Import String List.
Import ListNotations.

Open Scope R_scope.
Open Scope bool_scope.

(** ** JavaScript comparisons and truthiness on numbers *)

Definition Rltb (x y : R) : bool := if Rlt_dec x y then true else false.
Definition Rleb (x y : R) : bool := if Rle_dec x y then true else false.
Definition Rgtb (x y : R) : bool := if Rgt_dec x y then true else false.
Definition Rgeb (x y : R) : bool := if Rge_dec x y then true else false.
Definition Reqb (x y : R) : bool := if Req_dec_T x y then true else false.

Notation "x <? y" := (Rltb x y) : R_scope.
Notation "x <=? y" := (Rleb x y) : R_scope.
Notation "x >? y" := (Rgtb x y) : R_scope.
Notation "x >=? y" := (Rgeb x y) : R_scope.
Notation "x =? y" := (Reqb x y) : R_scope.

(** [x !== undefined]. *)
Definition defined (x : option R) : bool :=
  match x with Some _ => true | None => false end.

(** [!x] for [x : number | undefined]: [undefined] and [0] are falsy. *)
Definition falsy (x : option R) : bool :=
  match x with Some v => v =? 0 | None => true end.

(** [x || d] for [x : number | undefined]. *)
Definition js_or (x : option R) (d : R) : R :=
  match x with Some v => if v =? 0 then d else v | None => d end.

Notation "x |? d" := (js_or x d) (at level 45, no associativity) : R_scope.

(** A relational operator with a possibly [undefined] left operand:
    [undefined] converts to NaN and every comparison with it is [false]. *)
Definition opt_lt (x : option R) (y : R) : bool :=
  match x with Some v => v <? y | None => false end.
Definition opt_le (x : option R) (y : R) : bool :=
  match x with Some v => v <=? y | None => false end.
Definition opt_gt (x : option R) (y : R) : bool :=
  match x with Some v => v >? y | None => false end.
Definition opt_ge (x : option R) (y : R) : bool :=
  match x with Some v => v >=? y | None => false end.

(** ** Helper functions (source lines 17-49) *)

Definition sdicat (sdi : R) : R :=
  if (sdi >=? 1) && (sdi <? 4) then 0
  else if (sdi >=? 4) && (sdi <? 7) then 1
  else if (sdi >=? 7) && (sdi <=? 10) then 2
  else 0.

Definition mmol_conversion (cholesterol : R) : R := 0.02586 * cholesterol.

Definition adjust (uacr : R) : R :=
  if uacr >=? 0.1 then uacr
  else if (uacr >=? 0) && (uacr <? 0.1) then 0.1
  else uacr.

(** ** Data model (source lines 52-78) *)

Inductive ModelTag : Set := Base | Uacr | Hba1c | Sdi | Full.

Record PreventResults : Type := mkResults {
  prevent_10yr_CVD : option R;
  prevent_30yr_CVD : option R;
  prevent_10yr_ASCVD : option R;
  prevent_30yr_ASCVD : option R;
  prevent_10yr_HF : option R;
  prevent_30yr_HF : option R;
  model : ModelTag
}.

Record PreventInputs : Type := mkInputs {
  sex : R;
  age : R;
  tc : option R;
  hdl : option R;
  sbp : R;
  dm : R;
  smoking : R;
  bmi : option R;
  egfr : R;
  bptreat : R;
  statin : option R;
  uacr : option R;
  hba1c : option R;
  sdi : option R
}.

(** The closures of [preventFull] (source lines 520-546), with the
    variables they capture ([sdi], [uacr], [hba1c], [dm]) as arguments. *)

Definition getSdiTerm (sdi : option R) (coef1 coef2 missingCoef : R) : R :=
  match sdi with
  | Some sdi =>
      let sdiTertile := sdicat sdi in
      coef1 * (2 - sdiTertile) * sdiTertile
      + coef2 * (sdiTertile - 1) * (0.5 * sdiTertile)
  | None => missingCoef
  end.

Definition getUacrTerm (uacr : option R) (coef missingCoef : R) : R :=
  match uacr with
  | Some uacr => coef * ln (adjust uacr)
  | None => missingCoef
  end.

Definition getHba1cTerm (hba1c : option R) (dm : R)
    (coefDm coefNoDm missingCoef : R) : R :=
  match hba1c with
  | Some hba1c => coefDm * (hba1c - 5.3) * dm + coefNoDm * (hba1c - 5.3) * (1 - dm)
  | None => missingCoef
  end.

(** ** Log-odds of the twelve base and twelve full formulas

    Each definition is the right-hand side of one assignment of the source,
    term by term and in the source's grouping. *)

(** [logor_10yr_CVD], female, source lines 132-151. *)
Definition base_female_logor_10yr_CVD (params : PreventInputs) : R :=
  let (sex, age, tc, hdl, sbp, dm, smoking, bmi, egfr, bptreat, statin,
       uacr, hba1c, sdi) := params in
  -3.307728 +
    0.7939329 * (age - 55) / 10 +
    0.0305239 * (mmol_conversion ((tc |? 0) - (hdl |? 0)) - 3.5) -
    0.1606857 * (mmol_conversion (hdl |? 0) - 1.3) / 0.3 -
    0.2394003 * (Rmin sbp 110 - 110) / 20 +
    0.360078 * (Rmax sbp 110 - 130) / 20 +
    0.8667604 * dm +
    0.5360739 * smoking +
    0.6045917 * (Rmin egfr 60 - 60) / (-15) +
    0.0433769 * (Rmax egfr 60 - 90) / (-15) +
    0.3151672 * bptreat -
    0.1477655 * (statin |? 0) -
    0.0663612 * bptreat * (Rmax sbp 110 - 130) / 20 +
    0.1197879 * (statin |? 0) * (mmol_conversion ((tc |? 0) - (hdl |? 0)) - 3.5) -
    0.0819715 * (age - 55) / 10 * (mmol_conversion ((tc |? 0) - (hdl |? 0)) - 3.5) +
    0.0306769 * (age - 55) / 10 * (mmol_conversion (hdl |? 0) - 1.3) / 0.3 -
    0.0946348 * (age - 55) / 10 * (Rmax sbp 110 - 130) / 20 -
    0.27057 * (age - 55) / 10 * dm -
    0.078715 * (age - 55) / 10 * smoking -
    0.1637806 * (age - 55) / 10 * (Rmin egfr 60 - 60) / (-15).

(** [logor_30yr_CVD], female, source lines 155-175. *)
Definition base_female_logor_30yr_CVD (params : PreventInputs) : R :=
  let (sex, age, tc, hdl, sbp, dm, smoking, bmi, egfr, bptreat, statin,
       uacr, hba1c, sdi) := params in
  -1.318827 +
    0.5503079 * (age - 55) / 10 -
    0.0928369 * ((age - 55) / 10) ^ 2 +
    0.0409794 * (mmol_conversion ((tc |? 0) - (hdl |? 0)) - 3.5) +
    (-0.1663306) * (mmol_conversion (hdl |? 0) - 1.3) / 0.3 +
    (-0.1628654) * (Rmin sbp 110 - 110) / 20 +
    0.3299505 * (Rmax sbp 110 - 130) / 20 +
    0.6793894 * dm +
    0.3196112 * smoking +
    0.1857101 * (Rmin egfr 60 - 60) / (-15) +
    0.0553528 * (Rmax egfr 60 - 90) / (-15) +
    0.2894 * bptreat +
    (-0.075688) * (statin |? 0) +
    (-0.056367) * bptreat * (Rmax sbp 110 - 130) / 20 +
    0.1071019 * (statin |? 0) * (mmol_conversion ((tc |? 0) - (hdl |? 0)) - 3.5) +
    (-0.0751438) * (age - 55) / 10 * (mmol_conversion ((tc |? 0) - (hdl |? 0)) - 3.5) +
    0.0301786 * (age - 55) / 10 * (mmol_conversion (hdl |? 0) - 1.3) / 0.3 +
    (-0.0998776) * (age - 55) / 10 * (Rmax sbp 110 - 130) / 20 +
    (-0.3206166) * (age - 55) / 10 * dm +
    (-0.1607862) * (age - 55) / 10 * smoking +
    (-0.1450788) * (age - 55) / 10 * (Rmin egfr 60 - 60) / (-15).

(** [logor_10yr_ASCVD], female, source lines 179-198. *)
Definition base_female_logor_10yr_ASCVD (params : PreventInputs) : R :=
  let (sex, age, tc, hdl, sbp, dm, smoking, bmi, egfr, bptreat, statin,
       uacr, hba1c, sdi) := params in
  -3.819975 +
    0.719883 * (age - 55) / 10 +
    0.1176967 * (mmol_conversion (tc |? 0) - mmol_conversion (hdl |? 0) - 3.5) -
    0.151185 * (mmol_conversion (hdl |? 0) - 1.3) / 0.3 -
    0.0835358 * (Rmin sbp 110 - 110) / 20 +
    0.3592852 * (Rmax sbp 110 - 130) / 20 +
    0.8348585 * dm +
    0.4831078 * smoking +
    0.4864619 * (Rmin egfr 60 - 60) / (-15) +
    0.0397779 * (Rmax egfr 60 - 90) / (-15) +
    0.2265309 * bptreat -
    0.0592374 * (statin |? 0) -
    0.0395762 * bptreat * (Rmax sbp 110 - 130) / 20 +
    0.0844423 * (statin |? 0) * (mmol_conversion (tc |? 0) - mmol_conversion (hdl |? 0) - 3.5) -
    0.0567839 * (age - 55) / 10 * (mmol_conversion (tc |? 0) - mmol_conversion (hdl |? 0) - 3.5) +
    0.0325692 * (age - 55) / 10 * (mmol_conversion (hdl |? 0) - 1.3) / 0.3 -
    0.1035985 * (age - 55) / 10 * (Rmax sbp 110 - 130) / 20 -
    0.2417542 * (age - 55) / 10 * dm -
    0.0791142 * (age - 55) / 10 * smoking -
    0.1671492 * (age - 55) / 10 * (Rmin egfr 60 - 60) / (-15).

(** [logor_30yr_ASCVD], female, source lines 202-222. *)
Definition base_female_logor_30yr_ASCVD (params : PreventInputs) : R :=
  let (sex, age, tc, hdl, sbp, dm, smoking, bmi, egfr, bptreat, statin,
       uacr, hba1c, sdi) := params in
  -1.974074 +
    0.4669202 * (age - 55) / 10 -
    0.0893118 * ((age - 55) / 10) ^ 2 +
    0.1256901 * (mmol_conversion (tc |? 0) - mmol_conversion (hdl |? 0) - 3.5) -
    0.1542255 * (mmol_conversion (hdl |? 0) - 1.3) / 0.3 -
    0.0018093 * (Rmin sbp 110 - 110) / 20 +
    0.322949 * (Rmax sbp 110 - 130) / 20 +
    0.6296707 * dm +
    0.268292 * smoking +
    0.100106 * (Rmin egfr 60 - 60) / (-15) +
    0.0499663 * (Rmax egfr 60 - 90) / (-15) +
    0.1875292 * bptreat +
    0.0152476 * (statin |? 0) -
    0.0276123 * bptreat * (Rmax sbp 110 - 130) / 20 +
    0.0736147 * (statin |? 0) * (mmol_conversion (tc |? 0) - mmol_conversion (hdl |? 0) - 3.5) -
    0.0521962 * (age - 55) / 10 * (mmol_conversion (tc |? 0) - mmol_conversion (hdl |? 0) - 3.5) +
    0.0316918 * (age - 55) / 10 * (mmol_conversion (hdl |? 0) - 1.3) / 0.3 -
    0.1046101 * (age - 55) / 10 * (Rmax sbp 110 - 130) / 20 -
    0.2727793 * (age - 55) / 10 * dm -
    0.1530907 * (age - 55) / 10 * smoking -
    0.1299149 * (age - 55) / 10 * (Rmin egfr 60 - 60) / (-15).

(** [logor_10yr_HF], female, source lines 226-242. *)
Definition base_female_logor_10yr_HF (params : PreventInputs) : R :=
  let (sex, age, tc, hdl, sbp, dm, smoking, bmi, egfr, bptreat, statin,
       uacr, hba1c, sdi) := params in
  -4.310409 +
    0.8998235 * (age - 55) / 10 -
    0.4559771 * (Rmin sbp 110 - 110) / 20 +
    0.3576505 * (Rmax sbp 110 - 130) / 20 +
    1.038346 * dm +
    0.583916 * smoking -
    0.0072294 * (Rmin (bmi |? 25) 30 - 25) / 5 +
    0.2997706 * (Rmax (bmi |? 25) 30 - 30) / 5 +
    0.7451638 * (Rmin egfr 60 - 60) / (-15) +
    0.0557087 * (Rmax egfr 60 - 90) / (-15) +
    0.3534442 * bptreat -
    0.0981511 * bptreat * (Rmax sbp 110 - 130) / 20 -
    0.0946663 * (age - 55) / 10 * (Rmax sbp 110 - 130) / 20 -
    0.3581041 * (age - 55) / 10 * dm -
    0.1159453 * (age - 55) / 10 * smoking -
    0.003878 * (age - 55) / 10 * (Rmax (bmi |? 25) 30 - 30) / 5 -
    0.1884289 * (age - 55) / 10 * (Rmin egfr 60 - 60) / (-15).

(** [logor_30yr_HF], female, source lines 246-263. *)
Definition base_female_logor_30yr_HF (params : PreventInputs) : R :=
  let (sex, age, tc, hdl, sbp, dm, smoking, bmi, egfr, bptreat, statin,
       uacr, hba1c, sdi) := params in
  -2.205379 +
    0.6254374 * (age - 55) / 10 -
    0.0983038 * ((age - 55) / 10) ^ 2 -
    0.3919241 * (Rmin sbp 110 - 110) / 20 +
    0.3142295 * (Rmax sbp 110 - 130) / 20 +
    0.8330787 * dm +
    0.3438651 * smoking +
    0.0594874 * (Rmin (bmi |? 25) 30 - 25) / 5 +
    0.2525536 * (Rmax (bmi |? 25) 30 - 30) / 5 +
    0.2981642 * (Rmin egfr 60 - 60) / (-15) +
    0.0667159 * (Rmax egfr 60 - 90) / (-15) +
    0.333921 * bptreat -
    0.0893177 * bptreat * (Rmax sbp 110 - 130) / 20 -
    0.0974299 * (age - 55) / 10 * (Rmax sbp 110 - 130) / 20 -
    0.404855 * (age - 55) / 10 * dm -
    0.1982991 * (age - 55) / 10 * smoking -
    0.0035619 * (age - 55) / 10 * (Rmax (bmi |? 25) 30 - 30) / 5 -
    0.1564215 * (age - 55) / 10 * (Rmin egfr 60 - 60) / (-15).

(** [logor_10yr_CVD], male, source lines 268-287. *)
Definition base_male_logor_10yr_CVD (params : PreventInputs) : R :=
  let (sex, age, tc, hdl, sbp, dm, smoking, bmi, egfr, bptreat, statin,
       uacr, hba1c, sdi) := params in
  -3.031168 +
    0.7688528 * (age - 55) / 10 +
    0.0736174 * (mmol_conversion ((tc |? 0) - (hdl |? 0)) - 3.5) -
    0.0954431 * (mmol_conversion (hdl |? 0) - 1.3) / 0.3 -
    0.4347345 * (Rmin sbp 110 - 110) / 20 +
    0.3362658 * (Rmax sbp 110 - 130) / 20 +
    0.7692857 * dm +
    0.4386871 * smoking +
    0.5378979 * (Rmin egfr 60 - 60) / (-15) +
    0.0164827 * (Rmax egfr 60 - 90) / (-15) +
    0.288879 * bptreat -
    0.1337349 * (statin |? 0) -
    0.0475924 * bptreat * (Rmax sbp 110 - 130) / 20 +
    0.150273 * (statin |? 0) * (mmol_conversion ((tc |? 0) - (hdl |? 0)) - 3.5) -
    0.0517874 * (age - 55) / 10 * (mmol_conversion ((tc |? 0) - (hdl |? 0)) - 3.5) +
    0.0191169 * (age - 55) / 10 * (mmol_conversion (hdl |? 0) - 1.3) / 0.3 -
    0.1049477 * (age - 55) / 10 * (Rmax sbp 110 - 130) / 20 -
    0.2251948 * (age - 55) / 10 * dm -
    0.0895067 * (age - 55) / 10 * smoking -
    0.1543702 * (age - 55) / 10 * (Rmin egfr 60 - 60) / (-15).

(** [logor_30yr_CVD], male, source lines 291-311. *)
Definition base_male_logor_30yr_CVD (params : PreventInputs) : R :=
  let (sex, age, tc, hdl, sbp, dm, smoking, bmi, egfr, bptreat, statin,
       uacr, hba1c, sdi) := params in
  -1.148204 +
    0.4627309 * (age - 55) / 10 -
    0.0984281 * ((age - 55) / 10) ^ 2 +
    0.0836088 * (mmol_conversion ((tc |? 0) - (hdl |? 0)) - 3.5) +
    (-0.1029824) * (mmol_conversion (hdl |? 0) - 1.3) / 0.3 +
    (-0.2140352) * (Rmin sbp 110 - 110) / 20 +
    0.2904325 * (Rmax sbp 110 - 130) / 20 +
    0.5331276 * dm +
    0.2141914 * smoking +
    0.1155556 * (Rmin egfr 60 - 60) / (-15) +
    0.0603775 * (Rmax egfr 60 - 90) / (-15) +
    0.232714 * bptreat +
    (-0.0272112) * (statin |? 0) +
    (-0.0384488) * bptreat * (Rmax sbp 110 - 130) / 20 +
    0.134192 * (statin |? 0) * (mmol_conversion ((tc |? 0) - (hdl |? 0)) - 3.5) +
    (-0.0511759) * (age - 55) / 10 * (mmol_conversion ((tc |? 0) - (hdl |? 0)) - 3.5) +
    0.0165865 * (age - 55) / 10 * (mmol_conversion (hdl |? 0) - 1.3) / 0.3 +
    (-0.1101437) * (age - 55) / 10 * (Rmax sbp 110 - 130) / 20 +
    (-0.2585943) * (age - 55) / 10 * dm +
    (-0.1566406) * (age - 55) / 10 * smoking +
    (-0.1166776) * (age - 55) / 10 * (Rmin egfr 60 - 60) / (-15).

(** [logor_10yr_ASCVD], male, source lines 315-334. *)
Definition base_male_logor_10yr_ASCVD (params : PreventInputs) : R :=
  let (sex, age, tc, hdl, sbp, dm, smoking, bmi, egfr, bptreat, statin,
       uacr, hba1c, sdi) := params in
  -3.500655 +
    0.7099847 * (age - 55) / 10 +
    0.1658663 * (mmol_conversion (tc |? 0) - mmol_conversion (hdl |? 0) - 3.5) -
    0.1144285 * (mmol_conversion (hdl |? 0) - 1.3) / 0.3 -
    0.2837212 * (Rmin sbp 110 - 110) / 20 +
    0.3239977 * (Rmax sbp 110 - 130) / 20 +
    0.7189597 * dm +
    0.3956973 * smoking +
    0.3690075 * (Rmin egfr 60 - 60) / (-15) +
    0.0203619 * (Rmax egfr 60 - 90) / (-15) +
    0.2036522 * bptreat -
    0.0865581 * (statin |? 0) -
    0.0322916 * bptreat * (Rmax sbp 110 - 130) / 20 +
    0.114563 * (statin |? 0) * (mmol_conversion (tc |? 0) - mmol_conversion (hdl |? 0) - 3.5) -
    0.0300005 * (age - 55) / 10 * (mmol_conversion (tc |? 0) - mmol_conversion (hdl |? 0) - 3.5) +
    0.0232747 * (age - 55) / 10 * (mmol_conversion (hdl |? 0) - 1.3) / 0.3 -
    0.0927024 * (age - 55) / 10 * (Rmax sbp 110 - 130) / 20 -
    0.2018525 * (age - 55) / 10 * dm -
    0.0970527 * (age - 55) / 10 * smoking -
    0.1217081 * (age - 55) / 10 * (Rmin egfr 60 - 60) / (-15).

(** [logor_30yr_ASCVD], male, source lines 338-358. *)
Definition base_male_logor_30yr_ASCVD (params : PreventInputs) : R :=
  let (sex, age, tc, hdl, sbp, dm, smoking, bmi, egfr, bptreat, statin,
       uacr, hba1c, sdi) := params in
  -1.736444 +
    0.3994099 * (age - 55) / 10 -
    0.0937484 * ((age - 55) / 10) ^ 2 +
    0.1744643 * (mmol_conversion (tc |? 0) - mmol_conversion (hdl |? 0) - 3.5) -
    0.120203 * (mmol_conversion (hdl |? 0) - 1.3) / 0.3 -
    0.0665117 * (Rmin sbp 110 - 110) / 20 +
    0.2753037 * (Rmax sbp 110 - 130) / 20 +
    0.4790257 * dm +
    0.1782635 * smoking -
    0.0218789 * (Rmin egfr 60 - 60) / (-15) +
    0.0602553 * (Rmax egfr 60 - 90) / (-15) +
    0.1421182 * bptreat +
    0.0135996 * (statin |? 0) -
    0.0218265 * bptreat * (Rmax sbp 110 - 130) / 20 +
    0.1013148 * (statin |? 0) * (mmol_conversion (tc |? 0) - mmol_conversion (hdl |? 0) - 3.5) -
    0.0312619 * (age - 55) / 10 * (mmol_conversion (tc |? 0) - mmol_conversion (hdl |? 0) - 3.5) +
    0.020673 * (age - 55) / 10 * (mmol_conversion (hdl |? 0) - 1.3) / 0.3 -
    0.0920935 * (age - 55) / 10 * (Rmax sbp 110 - 130) / 20 -
    0.2159947 * (age - 55) / 10 * dm -
    0.1548811 * (age - 55) / 10 * smoking -
    0.0712547 * (age - 55) / 10 * (Rmin egfr 60 - 60) / (-15).

(** [logor_10yr_HF], male, source lines 362-378. *)
Definition base_male_logor_10yr_HF (params : PreventInputs) : R :=
  let (sex, age, tc, hdl, sbp, dm, smoking, bmi, egfr, bptreat, statin,
       uacr, hba1c, sdi) := params in
  -3.946391 +
    0.8972642 * (age - 55) / 10 -
    0.6811466 * (Rmin sbp 110 - 110) / 20 +
    0.3634461 * (Rmax sbp 110 - 130) / 20 +
    0.923776 * dm +
    0.5023736 * smoking -
    0.0485841 * (Rmin (bmi |? 25) 30 - 25) / 5 +
    0.3726929 * (Rmax (bmi |? 25) 30 - 30) / 5 +
    0.6926917 * (Rmin egfr 60 - 60) / (-15) +
    0.0251827 * (Rmax egfr 60 - 90) / (-15) +
    0.2980922 * bptreat -
    0.0497731 * bptreat * (Rmax sbp 110 - 130) / 20 -
    0.1289201 * (age - 55) / 10 * (Rmax sbp 110 - 130) / 20 -
    0.3040924 * (age - 55) / 10 * dm -
    0.1401688 * (age - 55) / 10 * smoking +
    0.0068126 * (age - 55) / 10 * (Rmax (bmi |? 25) 30 - 30) / 5 -
    0.1797778 * (age - 55) / 10 * (Rmin egfr 60 - 60) / (-15).

(** [logor_30yr_HF], male, source lines 382-399. *)
Definition base_male_logor_30yr_HF (params : PreventInputs) : R :=
  let (sex, age, tc, hdl, sbp, dm, smoking, bmi, egfr, bptreat, statin,
       uacr, hba1c, sdi) := params in
  -1.95751 +
    0.5681541 * (age - 55) / 10 -
    0.1048388 * ((age - 55) / 10) ^ 2 -
    0.4761564 * (Rmin sbp 110 - 110) / 20 +
    0.30324 * (Rmax sbp 110 - 130) / 20 +
    0.6840338 * dm +
    0.2656273 * smoking +
    0.0833107 * (Rmin (bmi |? 25) 30 - 25) / 5 +
    0.26999 * (Rmax (bmi |? 25) 30 - 30) / 5 +
    0.2541805 * (Rmin egfr 60 - 60) / (-15) +
    0.0638923 * (Rmax egfr 60 - 90) / (-15) +
    0.2583631 * bptreat -
    0.0391938 * bptreat * (Rmax sbp 110 - 130) / 20 -
    0.1269124 * (age - 55) / 10 * (Rmax sbp 110 - 130) / 20 -
    0.3273572 * (age - 55) / 10 * dm -
    0.2043019 * (age - 55) / 10 * smoking -
    0.0182831 * (age - 55) / 10 * (Rmax (bmi |? 25) 30 - 30) / 5 -
    0.1342618 * (age - 55) / 10 * (Rmin egfr 60 - 60) / (-15).

(** [logor_10yr_CVD], female, source lines 550-572. *)
Definition full_female_logor_10yr_CVD (params : PreventInputs) : R :=
  let (sex, age, tc, hdl, sbp, dm, smoking, bmi, egfr, bptreat, statin,
       uacr, hba1c, sdi) := params in
  -3.860385 +
    0.7716794 * (age - 55) / 10 +
    0.0062109 * (mmol_conversion ((tc |? 0) - (hdl |? 0)) - 3.5) -
    0.1547756 * (mmol_conversion (hdl |? 0) - 1.3) / 0.3 -
    0.1933123 * (Rmin sbp 110 - 110) / 20 +
    0.3071217 * (Rmax sbp 110 - 130) / 20 +
    0.496753 * dm +
    0.466605 * smoking +
    0.4780697 * (Rmin egfr 60 - 60) / (-15) +
    0.0529077 * (Rmax egfr 60 - 90) / (-15) +
    0.3034892 * bptreat -
    0.1556524 * (statin |? 0) -
    0.0667026 * bptreat * (Rmax sbp 110 - 130) / 20 +
    0.1061825 * (statin |? 0) * (mmol_conversion ((tc |? 0) - (hdl |? 0)) - 3.5) -
    0.0742271 * (age - 55) / 10 * (mmol_conversion ((tc |? 0) - (hdl |? 0)) - 3.5) +
    0.0288245 * (age - 55) / 10 * (mmol_conversion (hdl |? 0) - 1.3) / 0.3 -
    0.0875188 * (age - 55) / 10 * (Rmax sbp 110 - 130) / 20 -
    0.2267102 * (age - 55) / 10 * dm -
    0.0676125 * (age - 55) / 10 * smoking -
    0.1493231 * (age - 55) / 10 * (Rmin egfr 60 - 60) / (-15) +
    getSdiTerm sdi (0.1361989) (0.2261596) (0.1804508) +
    getUacrTerm uacr (0.1645922) (0.0198413) +
    getHba1cTerm hba1c dm (0.1298513) (0.1412555) (-0.0031658).

(** [logor_10yr_ASCVD], female, source lines 575-597. *)
Definition full_female_logor_10yr_ASCVD (params : PreventInputs) : R :=
  let (sex, age, tc, hdl, sbp, dm, smoking, bmi, egfr, bptreat, statin,
       uacr, hba1c, sdi) := params in
  -4.291503 +
    0.7023067 * (age - 55) / 10 +
    0.0898765 * (mmol_conversion (tc |? 0) - mmol_conversion (hdl |? 0) - 3.5) -
    0.1407316 * (mmol_conversion (hdl |? 0) - 1.3) / 0.3 -
    0.0256648 * (Rmin sbp 110 - 110) / 20 +
    0.314511 * (Rmax sbp 110 - 130) / 20 +
    0.4799217 * dm +
    0.4062049 * smoking +
    0.3847744 * (Rmin egfr 60 - 60) / (-15) +
    0.0495174 * (Rmax egfr 60 - 90) / (-15) +
    0.2133861 * bptreat -
    0.0678552 * (statin |? 0) -
    0.0451416 * bptreat * (Rmax sbp 110 - 130) / 20 +
    0.0788187 * (statin |? 0) * (mmol_conversion (tc |? 0) - mmol_conversion (hdl |? 0) - 3.5) -
    0.0535985 * (age - 55) / 10 * (mmol_conversion (tc |? 0) - mmol_conversion (hdl |? 0) - 3.5) +
    0.0291762 * (age - 55) / 10 * (mmol_conversion (hdl |? 0) - 1.3) / 0.3 -
    0.0961839 * (age - 55) / 10 * (Rmax sbp 110 - 130) / 20 -
    0.2001466 * (age - 55) / 10 * dm -
    0.0586472 * (age - 55) / 10 * smoking -
    0.1537791 * (age - 55) / 10 * (Rmin egfr 60 - 60) / (-15) +
    getSdiTerm sdi (0.1413965) (0.228136) (0.1588908) +
    getUacrTerm uacr (0.1371824) (0.0061613) +
    getHba1cTerm hba1c dm (0.123192) (0.1410572) (0.005866).

(** [logor_10yr_HF], female, source lines 600-619. *)
Definition full_female_logor_10yr_HF (params : PreventInputs) : R :=
  let (sex, age, tc, hdl, sbp, dm, smoking, bmi, egfr, bptreat, statin,
       uacr, hba1c, sdi) := params in
  -4.896524 +
    0.884209 * (age - 55) / 10 -
    0.421474 * (Rmin sbp 110 - 110) / 20 +
    0.3002919 * (Rmax sbp 110 - 130) / 20 +
    0.6170359 * dm +
    0.5380269 * smoking -
    0.0191335 * (Rmin (bmi |? 25) 30 - 25) / 5 +
    0.2764302 * (Rmax (bmi |? 25) 30 - 30) / 5 +
    0.5975847 * (Rmin egfr 60 - 60) / (-15) +
    0.0654197 * (Rmax egfr 60 - 90) / (-15) +
    0.3313614 * bptreat -
    0.1002304 * bptreat * (Rmax sbp 110 - 130) / 20 -
    0.0845363 * (age - 55) / 10 * (Rmax sbp 110 - 130) / 20 -
    0.2989062 * (age - 55) / 10 * dm -
    0.1111354 * (age - 55) / 10 * smoking +
    0.0008104 * (age - 55) / 10 * (Rmax (bmi |? 25) 30 - 30) / 5 -
    0.1666635 * (age - 55) / 10 * (Rmin egfr 60 - 60) / (-15) +
    getSdiTerm sdi (0.1213034) (0.2314147) (0.1819138) +
    getUacrTerm uacr (0.1948135) (0.0395368) +
    getHba1cTerm hba1c dm (0.176668) (0.1614911) (-0.0010583).

(** [logor_30yr_CVD], female, source lines 623-646. *)
Definition full_female_logor_30yr_CVD (params : PreventInputs) : R :=
  let (sex, age, tc, hdl, sbp, dm, smoking, bmi, egfr, bptreat, statin,
       uacr, hba1c, sdi) := params in
  -1.748475 +
    0.5073749 * (age - 55) / 10 -
    0.0981751 * ((age - 55) / 10) ^ 2 +
    0.0162303 * (mmol_conversion ((tc |? 0) - (hdl |? 0)) - 3.5) -
    0.1617147 * (mmol_conversion (hdl |? 0) - 1.3) / 0.3 -
    0.1111241 * (Rmin sbp 110 - 110) / 20 +
    0.282946 * (Rmax sbp 110 - 130) / 20 +
    0.4004069 * dm +
    0.2918701 * smoking +
    0.1017102 * (Rmin egfr 60 - 60) / (-15) +
    0.0622643 * (Rmax egfr 60 - 90) / (-15) +
    0.2872416 * bptreat -
    0.0768135 * (statin |? 0) -
    0.0557282 * bptreat * (Rmax sbp 110 - 130) / 20 +
    0.0917585 * (statin |? 0) * (mmol_conversion ((tc |? 0) - (hdl |? 0)) - 3.5) -
    0.0679131 * (age - 55) / 10 * (mmol_conversion ((tc |? 0) - (hdl |? 0)) - 3.5) +
    0.029076 * (age - 55) / 10 * (mmol_conversion (hdl |? 0) - 1.3) / 0.3 -
    0.0907755 * (age - 55) / 10 * (Rmax sbp 110 - 130) / 20 -
    0.2702118 * (age - 55) / 10 * dm -
    0.1373216 * (age - 55) / 10 * smoking -
    0.1255864 * (age - 55) / 10 * (Rmin egfr 60 - 60) / (-15) +
    getSdiTerm sdi (0.1067741) (0.1853138) (0.1567115) +
    getUacrTerm uacr (0.1028065) (-0.0006181) +
    getHba1cTerm hba1c dm (0.0925285) (0.0975598) (0.0101713).

(** [logor_30yr_ASCVD], female, source lines 649-672. *)
Definition full_female_logor_30yr_ASCVD (params : PreventInputs) : R :=
  let (sex, age, tc, hdl, sbp, dm, smoking, bmi, egfr, bptreat, statin,
       uacr, hba1c, sdi) := params in
  -2.314066 +
    0.4386739 * (age - 55) / 10 -
    0.0921956 * ((age - 55) / 10) ^ 2 +
    0.0977728 * (mmol_conversion (tc |? 0) - mmol_conversion (hdl |? 0) - 3.5) -
    0.1453525 * (mmol_conversion (hdl |? 0) - 1.3) / 0.3 +
    0.0590925 * (Rmin sbp 110 - 110) / 20 +
    0.2862862 * (Rmax sbp 110 - 130) / 20 +
    0.3669136 * dm +
    0.2354695 * smoking +
    0.0354338 * (Rmin egfr 60 - 60) / (-15) +
    0.0573093 * (Rmax egfr 60 - 90) / (-15) +
    0.1840085 * bptreat +
    0.0117504 * (statin |? 0) -
    0.0331945 * bptreat * (Rmax sbp 110 - 130) / 20 +
    0.0664311 * (statin |? 0) * (mmol_conversion (tc |? 0) - mmol_conversion (hdl |? 0) - 3.5) -
    0.0492826 * (age - 55) / 10 * (mmol_conversion (tc |? 0) - mmol_conversion (hdl |? 0) - 3.5) +
    0.0288888 * (age - 55) / 10 * (mmol_conversion (hdl |? 0) - 1.3) / 0.3 -
    0.0964709 * (age - 55) / 10 * (Rmax sbp 110 - 130) / 20 -
    0.2279648 * (age - 55) / 10 * dm -
    0.120405 * (age - 55) / 10 * smoking -
    0.1157635 * (age - 55) / 10 * (Rmin egfr 60 - 60) / (-15) +
    getSdiTerm sdi (0.1107632) (0.1840367) (0.1308962) +
    getUacrTerm uacr (0.0810739) (-0.0147785) +
    getHba1cTerm hba1c dm (0.0794709) (0.1002615) (0.017301).

(** [logor_30yr_HF], female, source lines 675-695. *)
Definition full_female_logor_30yr_HF (params : PreventInputs) : R :=
  let (sex, age, tc, hdl, sbp, dm, smoking, bmi, egfr, bptreat, statin,
       uacr, hba1c, sdi) := params in
  -2.642208 +
    0.5927507 * (age - 55) / 10 -
    0.1028754 * ((age - 55) / 10) ^ 2 -
    0.3593781 * (Rmin sbp 110 - 110) / 20 +
    0.2628556 * (Rmax sbp 110 - 130) / 20 +
    0.5113472 * dm +
    0.347344 * smoking +
    0.0564656 * (Rmin (bmi |? 25) 30 - 25) / 5 +
    0.2363857 * (Rmax (bmi |? 25) 30 - 30) / 5 +
    0.1971295 * (Rmin egfr 60 - 60) / (-15) +
    0.0735227 * (Rmax egfr 60 - 90) / (-15) +
    0.3219386 * bptreat -
    0.0880321 * bptreat * (Rmax sbp 110 - 130) / 20 -
    0.0863132 * (age - 55) / 10 * (Rmax sbp 110 - 130) / 20 -
    0.3425359 * (age - 55) / 10 * dm -
    0.181405 * (age - 55) / 10 * smoking +
    0.0031285 * (age - 55) / 10 * (Rmax (bmi |? 25) 30 - 30) / 5 -
    0.1356989 * (age - 55) / 10 * (Rmin egfr 60 - 60) / (-15) +
    getSdiTerm sdi (0.0847634) (0.18397) (0.1485802) +
    getUacrTerm uacr (0.1273306) (0.0167008) +
    getHba1cTerm hba1c dm (0.1378342) (0.1138832) (0.0138979).

(** [logor_10yr_CVD], male, source lines 700-722. *)
Definition full_male_logor_10yr_CVD (params : PreventInputs) : R :=
  let (sex, age, tc, hdl, sbp, dm, smoking, bmi, egfr, bptreat, statin,
       uacr, hba1c, sdi) := params in
  -3.631387 +
    0.7847578 * (age - 55) / 10 +
    0.0534485 * (mmol_conversion ((tc |? 0) - (hdl |? 0)) - 3.5) -
    0.0911282 * (mmol_conversion (hdl |? 0) - 1.3) / 0.3 -
    0.4921973 * (Rmin sbp 110 - 110) / 20 +
    0.2972415 * (Rmax sbp 110 - 130) / 20 +
    0.4527054 * dm +
    0.3726641 * smoking +
    0.3886854 * (Rmin egfr 60 - 60) / (-15) +
    0.0081661 * (Rmax egfr 60 - 90) / (-15) +
    0.2508052 * bptreat -
    0.1538484 * (statin |? 0) -
    0.0474695 * bptreat * (Rmax sbp 110 - 130) / 20 +
    0.1415382 * (statin |? 0) * (mmol_conversion ((tc |? 0) - (hdl |? 0)) - 3.5) -
    0.0436455 * (age - 55) / 10 * (mmol_conversion ((tc |? 0) - (hdl |? 0)) - 3.5) +
    0.0199549 * (age - 55) / 10 * (mmol_conversion (hdl |? 0) - 1.3) / 0.3 -
    0.1022686 * (age - 55) / 10 * (Rmax sbp 110 - 130) / 20 -
    0.1762507 * (age - 55) / 10 * dm -
    0.0715873 * (age - 55) / 10 * smoking -
    0.1428668 * (age - 55) / 10 * (Rmin egfr 60 - 60) / (-15) +
    getSdiTerm sdi (0.0802431) (0.275073) (0.144759) +
    getUacrTerm uacr (0.1772853) (0.1095674) +
    getHba1cTerm hba1c dm (0.1165698) (0.1048297) (-0.0230072).

(** [logor_10yr_ASCVD], male, source lines 725-747. *)
Definition full_male_logor_10yr_ASCVD (params : PreventInputs) : R :=
  let (sex, age, tc, hdl, sbp, dm, smoking, bmi, egfr, bptreat, statin,
       uacr, hba1c, sdi) := params in
  -3.969788 +
    0.7128741 * (age - 55) / 10 +
    0.1465201 * (mmol_conversion (tc |? 0) - mmol_conversion (hdl |? 0) - 3.5) -
    0.1125794 * (mmol_conversion (hdl |? 0) - 1.3) / 0.3 -
    0.3387216 * (Rmin sbp 110 - 110) / 20 +
    0.2980252 * (Rmax sbp 110 - 130) / 20 +
    0.399583 * dm +
    0.3379111 * smoking +
    0.2582604 * (Rmin egfr 60 - 60) / (-15) +
    0.0147769 * (Rmax egfr 60 - 90) / (-15) +
    0.1686621 * bptreat -
    0.1073619 * (statin |? 0) -
    0.0381038 * bptreat * (Rmax sbp 110 - 130) / 20 +
    0.1034169 * (statin |? 0) * (mmol_conversion (tc |? 0) - mmol_conversion (hdl |? 0) - 3.5) -
    0.0228755 * (age - 55) / 10 * (mmol_conversion (tc |? 0) - mmol_conversion (hdl |? 0) - 3.5) +
    0.0267453 * (age - 55) / 10 * (mmol_conversion (hdl |? 0) - 1.3) / 0.3 -
    0.0897449 * (age - 55) / 10 * (Rmax sbp 110 - 130) / 20 -
    0.1497464 * (age - 55) / 10 * dm -
    0.077206 * (age - 55) / 10 * smoking -
    0.1198368 * (age - 55) / 10 * (Rmin egfr 60 - 60) / (-15) +
    getSdiTerm sdi (0.0651121) (0.2676683) (0.1388492) +
    getUacrTerm uacr (0.1375837) (0.0652944) +
    getHba1cTerm hba1c dm (0.101282) (0.1092726) (-0.0112852).

(** [logor_10yr_HF], male, source lines 750-769. *)
Definition full_male_logor_10yr_HF (params : PreventInputs) : R :=
  let (sex, age, tc, hdl, sbp, dm, smoking, bmi, egfr, bptreat, statin,
       uacr, hba1c, sdi) := params in
  -4.663513 +
    0.9095703 * (age - 55) / 10 -
    0.6765184 * (Rmin sbp 110 - 110) / 20 +
    0.3111651 * (Rmax sbp 110 - 130) / 20 +
    0.5535052 * dm +
    0.4326811 * smoking -
    0.0854286 * (Rmin (bmi |? 25) 30 - 25) / 5 +
    0.3551736 * (Rmax (bmi |? 25) 30 - 30) / 5 +
    0.5102245 * (Rmin egfr 60 - 60) / (-15) +
    0.015472 * (Rmax egfr 60 - 90) / (-15) +
    0.2570964 * bptreat -
    0.0591177 * bptreat * (Rmax sbp 110 - 130) / 20 -
    0.1219056 * (age - 55) / 10 * (Rmax sbp 110 - 130) / 20 -
    0.2437577 * (age - 55) / 10 * dm -
    0.105363 * (age - 55) / 10 * smoking +
    0.0037907 * (age - 55) / 10 * (Rmax (bmi |? 25) 30 - 30) / 5 -
    0.1660207 * (age - 55) / 10 * (Rmin egfr 60 - 60) / (-15) +
    getSdiTerm sdi (0.1106372) (0.3371204) (0.1694628) +
    getUacrTerm uacr (0.2164607) (0.1702805) +
    getHba1cTerm hba1c dm (0.148297) (0.1234088) (-0.0234637).

(** [logor_30yr_CVD], male, source lines 773-796. *)
Definition full_male_logor_30yr_CVD (params : PreventInputs) : R :=
  let (sex, age, tc, hdl, sbp, dm, smoking, bmi, egfr, bptreat, statin,
       uacr, hba1c, sdi) := params in
  -1.504558 +
    0.4427595 * (age - 55) / 10 -
    0.1064108 * ((age - 55) / 10) ^ 2 +
    0.0629381 * (mmol_conversion ((tc |? 0) - (hdl |? 0)) - 3.5) -
    0.1015427 * (mmol_conversion (hdl |? 0) - 1.3) / 0.3 -
    0.2542326 * (Rmin sbp 110 - 110) / 20 +
    0.2549679 * (Rmax sbp 110 - 130) / 20 +
    0.333835 * dm +
    0.1873833 * smoking +
    0.0246102 * (Rmin egfr 60 - 60) / (-15) +
    0.0552014 * (Rmax egfr 60 - 90) / (-15) +
    0.1979729 * bptreat -
    0.0407714 * (statin |? 0) -
    0.0365522 * bptreat * (Rmax sbp 110 - 130) / 20 +
    0.1232822 * (statin |? 0) * (mmol_conversion ((tc |? 0) - (hdl |? 0)) - 3.5) -
    0.0441334 * (age - 55) / 10 * (mmol_conversion ((tc |? 0) - (hdl |? 0)) - 3.5) +
    0.0177865 * (age - 55) / 10 * (mmol_conversion (hdl |? 0) - 1.3) / 0.3 -
    0.1046657 * (age - 55) / 10 * (Rmax sbp 110 - 130) / 20 -
    0.2116113 * (age - 55) / 10 * dm -
    0.1277905 * (age - 55) / 10 * smoking -
    0.0955922 * (age - 55) / 10 * (Rmin egfr 60 - 60) / (-15) +
    getSdiTerm sdi (0.0256704) (0.1887637) (0.089241) +
    getUacrTerm uacr (0.0894596) (0.0710124) +
    getHba1cTerm hba1c dm (0.0676202) (0.063409) (0.0038783).

(** [logor_30yr_ASCVD], male, source lines 799-822. *)
Definition full_male_logor_30yr_ASCVD (params : PreventInputs) : R :=
  let (sex, age, tc, hdl, sbp, dm, smoking, bmi, egfr, bptreat, statin,
       uacr, hba1c, sdi) := params in
  -1.985368 +
    0.3743566 * (age - 55) / 10 -
    0.0995499 * ((age - 55) / 10) ^ 2 +
    0.1544808 * (mmol_conversion (tc |? 0) - mmol_conversion (hdl |? 0) - 3.5) -
    0.1215297 * (mmol_conversion (hdl |? 0) - 1.3) / 0.3 -
    0.1083968 * (Rmin sbp 110 - 110) / 20 +
    0.2555179 * (Rmax sbp 110 - 130) / 20 +
    0.2696998 * dm +
    0.1628432 * smoking -
    0.077507 * (Rmin egfr 60 - 60) / (-15) +
    0.0583407 * (Rmax egfr 60 - 90) / (-15) +
    0.1120322 * bptreat -
    0.0025063 * (statin |? 0) -
    0.0256116 * bptreat * (Rmax sbp 110 - 130) / 20 +
    0.0886745 * (statin |? 0) * (mmol_conversion (tc |? 0) - mmol_conversion (hdl |? 0) - 3.5) -
    0.0254507 * (age - 55) / 10 * (mmol_conversion (tc |? 0) - mmol_conversion (hdl |? 0) - 3.5) +
    0.0244639 * (age - 55) / 10 * (mmol_conversion (hdl |? 0) - 1.3) / 0.3 -
    0.0869146 * (age - 55) / 10 * (Rmax sbp 110 - 130) / 20 -
    0.165745 * (age - 55) / 10 * dm -
    0.1244714 * (age - 55) / 10 * smoking -
    0.0624552 * (age - 55) / 10 * (Rmin egfr 60 - 60) / (-15) +
    getSdiTerm sdi (0.015675) (0.1864231) (0.0845697) +
    getUacrTerm uacr (0.0560171) (0.0252244) +
    getHba1cTerm hba1c dm (0.0501422) (0.0722905) (0.0114945).

(** [logor_30yr_HF], male, source lines 825-845. *)
Definition full_male_logor_30yr_HF (params : PreventInputs) : R :=
  let (sex, age, tc, hdl, sbp, dm, smoking, bmi, egfr, bptreat, statin,
       uacr, hba1c, sdi) := params in
  -2.425439 +
    0.5478829 * (age - 55) / 10 -
    0.1111928 * ((age - 55) / 10) ^ 2 -
    0.4547346 * (Rmin sbp 110 - 110) / 20 +
    0.2527602 * (Rmax sbp 110 - 130) / 20 +
    0.4385384 * dm +
    0.2397952 * smoking +
    0.0640931 * (Rmin (bmi |? 25) 30 - 25) / 5 +
    0.2643081 * (Rmax (bmi |? 25) 30 - 30) / 5 +
    0.1354588 * (Rmin egfr 60 - 60) / (-15) +
    0.0570689 * (Rmax egfr 60 - 90) / (-15) +
    0.220666 * bptreat -
    0.0436769 * bptreat * (Rmax sbp 110 - 130) / 20 -
    0.1168376 * (age - 55) / 10 * (Rmax sbp 110 - 130) / 20 -
    0.2730055 * (age - 55) / 10 * dm -
    0.1573691 * (age - 55) / 10 * smoking -
    0.0174998 * (age - 55) / 10 * (Rmax (bmi |? 25) 30 - 30) / 5 -
    0.1128676 * (age - 55) / 10 * (Rmin egfr 60 - 60) / (-15) +
    getSdiTerm sdi (0.057746) (0.2446441) (0.1076782) +
    getUacrTerm uacr (0.1233486) (0.1274796) +
    getHba1cTerm hba1c dm (0.0985062) (0.0804844) (0.0022806).

(** ** The two equation sets and the selector *)

(** [100 * Math.exp(l) / (1 + Math.exp(l))], the conversion the source
    writes out for each of the six scores (lines 404-411 and 850-857). *)
Definition percent (logor : R) : R := 100 * exp logor / (1 + exp logor).

(** The six mutable locals [prevent_*] of a call are kept in the result
    record itself, whose tag never changes; the assignments of the
    validation blocks are the three updates below. *)

Definition all_null (m : ModelTag) : PreventResults :=
  mkResults None None None None None None m.

Definition null_CVD_ASCVD (r : PreventResults) : PreventResults :=
  mkResults None None None None
            (prevent_10yr_HF r) (prevent_30yr_HF r) (model r).

Definition null_HF (r : PreventResults) : PreventResults :=
  mkResults (prevent_10yr_CVD r) (prevent_30yr_CVD r)
            (prevent_10yr_ASCVD r) (prevent_30yr_ASCVD r)
            None None (model r).

Definition null_all (r : PreventResults) : PreventResults :=
  mkResults None None None None None None (model r).

(** [if (c) { ...assignments... }] on the locals. *)
Definition when (c : bool) (f : PreventResults -> PreventResults)
    (r : PreventResults) : PreventResults :=
  if c then f r else r.

(** The validation blocks shared by both functions (lines 414-457 and
    860-903), in source order. *)
Definition missing_variable_checks (params : PreventInputs)
    (r : PreventResults) : PreventResults :=
  let (sex, age, tc, hdl, sbp, dm, smoking, bmi, egfr, bptreat, statin,
       uacr, hba1c, sdi) := params in
  let r := when (falsy tc || opt_lt tc 130 || opt_gt tc 320) null_CVD_ASCVD r in
  let r := when (falsy hdl || opt_lt hdl 20 || opt_gt hdl 100) null_CVD_ASCVD r in
  let r := when ((sbp <? 90) || (sbp >? 200)) null_all r in
  let r := when (egfr <=? 0) null_all r in
  let r := when (negb (defined statin)) null_CVD_ASCVD r in
  let r := when (falsy bmi || opt_lt bmi 18.5 || opt_ge bmi 40) null_HF r in
  r.

(** The blocks that only [preventFull] has (lines 905-931). *)
Definition optional_variable_checks (params : PreventInputs)
    (r : PreventResults) : PreventResults :=
  let (sex, age, tc, hdl, sbp, dm, smoking, bmi, egfr, bptreat, statin,
       uacr, hba1c, sdi) := params in
  let r := when (defined uacr && opt_lt uacr 0) null_all r in
  let r := when (defined hba1c && opt_le hba1c 0) null_all r in
  let r := when (defined sdi && (opt_lt sdi 1 || opt_gt sdi 10)) null_all r in
  r.

(** The scores right after the conversion to percentages: the 10-year ones
    are always assigned, the 30-year ones only under [calculate30yr]. *)
Definition converted (calculate30yr : bool)
    (logor_10yr_CVD logor_30yr_CVD logor_10yr_ASCVD logor_30yr_ASCVD
     logor_10yr_HF logor_30yr_HF : R) (m : ModelTag) : PreventResults :=
  mkResults
    (Some (percent logor_10yr_CVD))
    (if calculate30yr then Some (percent logor_30yr_CVD) else None)
    (Some (percent logor_10yr_ASCVD))
    (if calculate30yr then Some (percent logor_30yr_ASCVD) else None)
    (Some (percent logor_10yr_HF))
    (if calculate30yr then Some (percent logor_30yr_HF) else None)
    m.

Definition preventBase (params : PreventInputs) : PreventResults :=
  if negb (sex params =? 0) && negb (sex params =? 1) then all_null Base
  else if (age params <? 30) || (age params >? 79) then all_null Base
  else
    let calculate30yr := age params <=? 59 in
    let female := sex params =? 1 in
    let logor_10yr_CVD :=
      if female then base_female_logor_10yr_CVD params
      else base_male_logor_10yr_CVD params in
    let logor_30yr_CVD :=
      if calculate30yr then
        if female then base_female_logor_30yr_CVD params
        else base_male_logor_30yr_CVD params
      else 0 in
    let logor_10yr_ASCVD :=
      if female then base_female_logor_10yr_ASCVD params
      else base_male_logor_10yr_ASCVD params in
    let logor_30yr_ASCVD :=
      if calculate30yr then
        if female then base_female_logor_30yr_ASCVD params
        else base_male_logor_30yr_ASCVD params
      else 0 in
    let logor_10yr_HF :=
      if female then base_female_logor_10yr_HF params
      else base_male_logor_10yr_HF params in
    let logor_30yr_HF :=
      if calculate30yr then
        if female then base_female_logor_30yr_HF params
        else base_male_logor_30yr_HF params
      else 0 in
    missing_variable_checks params
      (converted calculate30yr logor_10yr_CVD logor_30yr_CVD
         logor_10yr_ASCVD logor_30yr_ASCVD logor_10yr_HF logor_30yr_HF Base).

Definition preventFull (params : PreventInputs) : PreventResults :=
  if negb (sex params =? 0) && negb (sex params =? 1) then all_null Full
  else if (age params <? 30) || (age params >? 79) then all_null Full
  else
    let calculate30yr := age params <=? 59 in
    let female := sex params =? 1 in
    let logor_10yr_CVD :=
      if female then full_female_logor_10yr_CVD params
      else full_male_logor_10yr_CVD params in
    let logor_30yr_CVD :=
      if calculate30yr then
        if female then full_female_logor_30yr_CVD params
        else full_male_logor_30yr_CVD params
      else 0 in
    let logor_10yr_ASCVD :=
      if female then full_female_logor_10yr_ASCVD params
      else full_male_logor_10yr_ASCVD params in
    let logor_30yr_ASCVD :=
      if calculate30yr then
        if female then full_female_logor_30yr_ASCVD params
        else full_male_logor_30yr_ASCVD params
      else 0 in
    let logor_10yr_HF :=
      if female then full_female_logor_10yr_HF params
      else full_male_logor_10yr_HF params in
    let logor_30yr_HF :=
      if calculate30yr then
        if female then full_female_logor_30yr_HF params
        else full_male_logor_30yr_HF params
      else 0 in
    optional_variable_checks params
      (missing_variable_checks params
         (converted calculate30yr logor_10yr_CVD logor_30yr_CVD
            logor_10yr_ASCVD logor_30yr_ASCVD logor_10yr_HF logor_30yr_HF
            Full)).

Definition calculatePreventRisk (params : PreventInputs) : PreventResults :=
  let hasOptionalVars :=
    defined (uacr params) || defined (hba1c params) || defined (sdi params) in
  if hasOptionalVars then preventFull params else preventBase params.

(** ** Vocabulary of the properties *)

Definition valid_sex (p : PreventInputs) : Prop := sex p = 0 \/ sex p = 1.

Definition valid_age (p : PreventInputs) : Prop := 30 <= age p <= 79.

(** An optional field that is absent, or present outside [[lo, hi]]. *)
Definition absent_or_outside (x : option R) (lo hi : R) : Prop :=
  x = None \/ exists v, x = Some v /\ (v < lo \/ hi < v).

(** An optional field that is present and within [[lo, hi]]. *)
Definition present_within (x : option R) (lo hi : R) : Prop :=
  exists v, x = Some v /\ lo <= v <= hi.

(** At least one of the three variables that select the full model is
    supplied. *)
Definition has_optional (p : PreventInputs) : Prop :=
  uacr p <> None \/ hba1c p <> None \/ sdi p <> None.

(** One of the supplied optional variables is out of its range. *)
Definition optional_out_of_range (p : PreventInputs) : Prop :=
  (exists u, uacr p = Some u /\ u < 0)
  \/ (exists h, hba1c p = Some h /\ h <= 0)
  \/ (exists s, sdi p = Some s /\ (s < 1 \/ 10 < s)).

(** Every input other than sex and age is valid: the required ones in their
    ranges, the cholesterol panel, statin and BMI present and in range, and
    each optional variable in range when supplied. *)
Definition others_valid (p : PreventInputs) : Prop :=
  90 <= sbp p <= 200 /\ 0 < egfr p
  /\ present_within (tc p) 130 320
  /\ present_within (hdl p) 20 100
  /\ statin p <> None
  /\ (exists b, bmi p = Some b /\ 18.5 <= b < 40)
  /\ (forall u, uacr p = Some u -> 0 <= u)
  /\ (forall h, hba1c p = Some h -> 0 < h)
  /\ (forall s, sdi p = Some s -> 1 <= s <= 10).

(** Two inputs that agree on every field except [tc], [hdl] and [statin]. *)
Definition differ_only_in_lipids (p q : PreventInputs) : Prop :=
  sex p = sex q /\ age p = age q /\ sbp p = sbp q /\ dm p = dm q
  /\ smoking p = smoking q /\ bmi p = bmi q /\ egfr p = egfr q
  /\ bptreat p = bptreat q /\ uacr p = uacr q /\ hba1c p = hba1c q
  /\ sdi p = sdi q.

(** [v] is one of the non-null scores of [r]. *)
Definition score_of (r : PreventResults) (v : R) : Prop :=
  prevent_10yr_CVD r = Some v \/ prevent_30yr_CVD r = Some v
  \/ prevent_10yr_ASCVD r = Some v \/ prevent_30yr_ASCVD r = Some v
  \/ prevent_10yr_HF r = Some v \/ prevent_30yr_HF r = Some v.

(** The six scores are all null. *)
Definition no_score (r : PreventResults) : Prop :=
  prevent_10yr_CVD r = None /\ prevent_30yr_CVD r = None
  /\ prevent_10yr_ASCVD r = None /\ prevent_30yr_ASCVD r = None
  /\ prevent_10yr_HF r = None /\ prevent_30yr_HF r = None.

(** The three 30-year scores are null. *)
Definition no_30yr_score (r : PreventResults) : Prop :=
  prevent_30yr_CVD r = None /\ prevent_30yr_ASCVD r = None
  /\ prevent_30yr_HF r = None.

(** The four CVD and ASCVD scores are null. *)
Definition no_CVD_ASCVD_score (r : PreventResults) : Prop :=
  prevent_10yr_CVD r = None /\ prevent_30yr_CVD r = None
  /\ prevent_10yr_ASCVD r = None /\ prevent_30yr_ASCVD r = None.

(** The two horizons of each endpoint are null together. *)
Definition horizons_coupled (r : PreventResults) : Prop :=
  (prevent_10yr_CVD r = None <-> prevent_30yr_CVD r = None)
  /\ (prevent_10yr_ASCVD r = None <-> prevent_30yr_ASCVD r = None)
  /\ (prevent_10yr_HF r = None <-> prevent_30yr_HF r = None).


(** Scenario A: male, 45 years, tc 180, hdl 50, sbp 120, no diabetes, no
    smoking, bmi 24, egfr 95, no treatment, no statin, no optional
    variable. *)
Definition scenario_A : PreventInputs :=
  mkInputs 0 45 (Some 180) (Some 50) 120 0 0 (Some 24) 95 0 (Some 0)
           None None None.

(** Scenario B: scenario A with [tc] omitted. *)
Definition scenario_B : PreventInputs :=
  mkInputs 0 45 None (Some 50) 120 0 0 (Some 24) 95 0 (Some 0)
           None None None.

(** Scenario C: female, 65 years, sdi 5, otherwise as scenario A. *)
Definition scenario_C : PreventInputs :=
  mkInputs 1 65 (Some 180) (Some 50) 120 0 0 (Some 24) 95 0 (Some 0)
           None None (Some 5).

(** Scenario A with a negative UACR supplied. *)
Definition scenario_negative_uacr : PreventInputs :=
  mkInputs 0 45 (Some 180) (Some 50) 120 0 0 (Some 24) 95 0 (Some 0)
           (Some (-1)) None None.

(** ** Further vocabulary: validity of the groups of inputs *)

(** The checks every score depends on: sex, age, sbp and egfr. *)
Definition required_valid (p : PreventInputs) : Prop :=
  valid_sex p /\ valid_age p /\ 90 <= sbp p <= 200 /\ 0 < egfr p.

(** The cholesterol panel: [tc] and [hdl] present and in range, [statin]
    defined. *)
Definition lipids_valid (p : PreventInputs) : Prop :=
  present_within (tc p) 130 320 /\ present_within (hdl p) 20 100
  /\ statin p <> None.

(** [bmi] present and in [[18.5, 40)]. *)
Definition bmi_valid (p : PreventInputs) : Prop :=
  exists b, bmi p = Some b /\ 18.5 <= b < 40.

(** The conditions of the validation blocks, as the source tests them. *)
Definition sex_rejected (p : PreventInputs) : bool :=
  negb (sex p =? 0) && negb (sex p =? 1).

Definition age_rejected (p : PreventInputs) : bool :=
  (age p <? 30) || (age p >? 79).

Definition tc_rejected (p : PreventInputs) : bool :=
  falsy (tc p) || opt_lt (tc p) 130 || opt_gt (tc p) 320.

Definition hdl_rejected (p : PreventInputs) : bool :=
  falsy (hdl p) || opt_lt (hdl p) 20 || opt_gt (hdl p) 100.

Definition sbp_rejected (p : PreventInputs) : bool :=
  (sbp p <? 90) || (sbp p >? 200).

Definition egfr_rejected (p : PreventInputs) : bool := egfr p <=? 0.

Definition statin_rejected (p : PreventInputs) : bool :=
  negb (defined (statin p)).

Definition bmi_rejected (p : PreventInputs) : bool :=
  falsy (bmi p) || opt_lt (bmi p) 18.5 || opt_ge (bmi p) 40.

Definition optional_rejected (p : PreventInputs) : bool :=
  (defined (uacr p) && opt_lt (uacr p) 0)
  || (defined (hba1c p) && opt_le (hba1c p) 0)
  || (defined (sdi p) && (opt_lt (sdi p) 1 || opt_gt (sdi p) 10)).

(** Two inputs that agree on every field except [bmi]. *)
Definition differ_only_in_bmi (p q : PreventInputs) : Prop :=
  sex p = sex q /\ age p = age q /\ tc p = tc q /\ hdl p = hdl q
  /\ sbp p = sbp q /\ dm p = dm q /\ smoking p = smoking q
  /\ egfr p = egfr q /\ bptreat p = bptreat q /\ statin p = statin q
  /\ uacr p = uacr q /\ hba1c p = hba1c q /\ sdi p = sdi q.

(** Two inputs that agree on every field except [uacr], [hba1c], [sdi]. *)
Definition differ_only_in_optional (p q : PreventInputs) : Prop :=
  sex p = sex q /\ age p = age q /\ tc p = tc q /\ hdl p = hdl q
  /\ sbp p = sbp q /\ dm p = dm q /\ smoking p = smoking q
  /\ bmi p = bmi q /\ egfr p = egfr q /\ bptreat p = bptreat q
  /\ statin p = statin q.

(** Two inputs that agree on every field except [uacr] and [sdi]. *)
Definition differ_only_in_uacr_sdi (p q : PreventInputs) : Prop :=
  sex p = sex q /\ age p = age q /\ tc p = tc q /\ hdl p = hdl q
  /\ sbp p = sbp q /\ dm p = dm q /\ smoking p = smoking q
  /\ bmi p = bmi q /\ egfr p = egfr q /\ bptreat p = bptreat q
  /\ statin p = statin q /\ hba1c p = hba1c q.






(** Two nullable scores that are null together and, when not, strictly
    ordered. *)
Definition score_lt (a b : option R) : Prop :=
  match a, b with
  | Some v, Some w => v < w
  | None, None => True
  | _, _ => False
  end.


(** The two results have null scores at the same places. *)
Definition same_nulls (r r' : PreventResults) : Prop :=
  (prevent_10yr_CVD r = None <-> prevent_10yr_CVD r' = None)
  /\ (prevent_30yr_CVD r = None <-> prevent_30yr_CVD r' = None)
  /\ (prevent_10yr_ASCVD r = None <-> prevent_10yr_ASCVD r' = None)
  /\ (prevent_30yr_ASCVD r = None <-> prevent_30yr_ASCVD r' = None)
  /\ (prevent_10yr_HF r = None <-> prevent_10yr_HF r' = None)
  /\ (prevent_30yr_HF r = None <-> prevent_30yr_HF r' = None).

(** Variants of the scenarios. *)
Definition scenario_no_bmi : PreventInputs :=
  mkInputs 0 45 (Some 180) (Some 50) 120 0 0 None 95 0 (Some 0)
           None None None.



Definition scenario_sdi (s : R) : PreventInputs :=
  mkInputs 1 65 (Some 180) (Some 50) 120 0 0 (Some 24) 95 0 (Some 0)
           None None (Some s).

Definition scenario_uacr (u : R) : PreventInputs :=
  mkInputs 0 45 (Some 180) (Some 50) 120 0 0 (Some 24) 95 0 (Some 0)
           (Some u) None None.


(** ** Risk interpretation (prevent-equations.ts, lines 971-988) *)

Inductive RiskType : Set := CVD | ASCVD | HF.

Inductive Timeframe : Set := Y10yr | Y30yr.

Definition is_ASCVD (type : RiskType) : bool :=
  match type with ASCVD => true | _ => false end.

Definition is_10yr (timeframe : Timeframe) : bool :=
  match timeframe with Y10yr => true | Y30yr => false end.

Definition interpretRisk (risk : option R) (type : RiskType)
    (timeframe : Timeframe) : string :=
  match risk with
  | None => "Não calculável com os dados fornecidos"%string
  | Some risk =>
      if is_ASCVD type && is_10yr timeframe then
        if risk <? 5 then "Baixo risco"%string
        else if risk <? 7.5 then "Risco intermediário"%string
        else if risk <? 20 then "Alto risco"%string
        else "Muito alto risco"%string
      else
        if risk <? 5 then "Baixo risco"%string
        else if risk <? 10 then "Risco intermediário baixo"%string
        else if risk <? 20 then "Risco intermediário alto"%string
        else "Alto risco"%string
  end.

(** ** The results view (App.tsx, lines 537-553) *)

Inductive RiskLevel : Set := low | moderate | high | very_high | unavailable.


Definition getRiskLevel (risk : option R) : RiskLevel :=
  match risk with
  | None => unavailable
  | Some risk =>
      if risk <? 5 then low
      else if risk <? 10 then moderate
      else if risk <? 20 then high
      else very_high
  end.

(** ** The form (App.tsx, lines 15-186)

    The component keeps three pieces of state: the fourteen text fields,
    the displayed results and the validation errors.  JavaScript's [Number]
    on a field's text and the rounding [Number(x.toFixed(1))] of a score are
    parameters: every field the form lets through is a numeral, read here as
    a real like every other number of the model. *)

Module App.


Record PreventInputs : Type := mkForm {
  sex : string;
  age : string;
  tc : string;
  hdl : string;
  sbp : string;
  dm : string;
  smoking : string;
  bmi : string;
  egfr : string;
  bptreat : string;
  statin : string;
  uacr : string;
  hba1c : string;
  sdi : string
}.

Record PreventResults : Type := mkFormatted {
  model : ModelTag;
  cvd_10yr : option R;
  cvd_30yr : option R;
  ascvd_10yr : option R;
  ascvd_30yr : option R;
  hf_10yr : option R;
  hf_30yr : option R
}.



(** A string is truthy when it is not empty. *)
Definition truthy (s : string) : bool := negb (String.eqb s "").






(** [if (c) validationErrors.push(msg)]. *)
Definition push_if (c : bool) (msg : string) (validationErrors : list string)
    : list string :=
  if c then validationErrors ++ [msg] else validationErrors.

Section Conversions.

Variable Number : string -> R.
Variable toFixed1 : R -> R.

(** Lines 70-120. *)
Definition validateInputs (inputs : PreventInputs) : list string :=
  let n := Number in
  let validationErrors : list string := [] in
  let validationErrors :=
    push_if (negb (truthy (sex inputs))) "Sexo é obrigatório" validationErrors in
  let validationErrors :=
    push_if (negb (truthy (age inputs))) "Idade é obrigatória" validationErrors in
  let validationErrors :=
    push_if (negb (truthy (sbp inputs)))
      "Pressão arterial sistólica é obrigatória" validationErrors in
  let validationErrors :=
    push_if (negb (truthy (dm inputs)))
      "Status de diabetes é obrigatório" validationErrors in
  let validationErrors :=
    push_if (negb (truthy (smoking inputs)))
      "Status de tabagismo é obrigatório" validationErrors in
  let validationErrors :=
    push_if (negb (truthy (egfr inputs))) "eGFR é obrigatório" validationErrors in
  let validationErrors :=
    push_if (negb (truthy (bptreat inputs)))
      "Tratamento de hipertensão é obrigatório" validationErrors in
  let validationErrors :=
    push_if (truthy (age inputs)
             && ((n (age inputs) <? 30) || (n (age inputs) >? 79)))
      "Idade deve estar entre 30-79 anos" validationErrors in
  let validationErrors :=
    push_if (truthy (tc inputs)
             && ((n (tc inputs) <? 130) || (n (tc inputs) >? 320)))
      "Colesterol total deve estar entre 130-320 mg/dL" validationErrors in
  let validationErrors :=
    push_if (truthy (hdl inputs)
             && ((n (hdl inputs) <? 20) || (n (hdl inputs) >? 100)))
      "HDL deve estar entre 20-100 mg/dL" validationErrors in
  let validationErrors :=
    push_if (truthy (sbp inputs)
             && ((n (sbp inputs) <? 90) || (n (sbp inputs) >? 200)))
      "PAS deve estar entre 90-200 mmHg" validationErrors in
  let validationErrors :=
    push_if (truthy (bmi inputs)
             && ((n (bmi inputs) <? 18.5) || (n (bmi inputs) >=? 40)))
      "IMC deve estar entre 18.5-39.9 kg/m²" validationErrors in
  let validationErrors :=
    push_if (truthy (egfr inputs) && (n (egfr inputs) <=? 0))
      "eGFR deve ser maior que 0" validationErrors in
  let validationErrors :=
    push_if (truthy (uacr inputs) && (n (uacr inputs) <? 0))
      "UACR deve ser ≥ 0" validationErrors in
  let validationErrors :=
    push_if (truthy (hba1c inputs) && (n (hba1c inputs) <=? 0))
      "HbA1c deve ser > 0" validationErrors in
  let validationErrors :=
    push_if (truthy (sdi inputs)
             && ((n (sdi inputs) <? 1) || (n (sdi inputs) >? 10)))
      "SDI deve estar entre 1-10" validationErrors in
  validationErrors.








End Conversions.

End App.

(** What [validateInputs] asks of the form: the seven required fields are
    filled, and every filled field converts to a number in its range. *)
Definition form_valid (Number : string -> R) (inputs : App.PreventInputs)
    : Prop :=
  (App.sex inputs <> "" /\ App.age inputs <> "" /\ App.sbp inputs <> ""
   /\ App.dm inputs <> "" /\ App.smoking inputs <> ""
   /\ App.egfr inputs <> "" /\ App.bptreat inputs <> "")%string
  /\ 30 <= Number (App.age inputs) <= 79
  /\ (App.tc inputs <> ""%string -> 130 <= Number (App.tc inputs) <= 320)
  /\ (App.hdl inputs <> ""%string -> 20 <= Number (App.hdl inputs) <= 100)
  /\ 90 <= Number (App.sbp inputs) <= 200
  /\ (App.bmi inputs <> ""%string -> 18.5 <= Number (App.bmi inputs) < 40)
  /\ 0 < Number (App.egfr inputs)
  /\ (App.uacr inputs <> ""%string -> 0 <= Number (App.uacr inputs))
  /\ (App.hba1c inputs <> ""%string -> 0 < Number (App.hba1c inputs))
  /\ (App.sdi inputs <> ""%string -> 1 <= Number (App.sdi inputs) <= 10).



(** * Properties *)

(** ** The boolean comparisons decide the order of the reals *)

Lemma Rltb_true (x y : R) : (x <? y) = true <-> x < y.
Proof. unfold Rltb; destruct (Rlt_dec x y); split; intros; congruence || easy. Qed.

Lemma Rleb_true (x y : R) : (x <=? y) = true <-> x <= y.
Proof. unfold Rleb; destruct (Rle_dec x y); split; intros; congruence || easy. Qed.

Lemma Rgtb_true (x y : R) : (x >? y) = true <-> y < x.
Proof. unfold Rgtb; destruct (Rgt_dec x y); split; intros; congruence || easy. Qed.

Lemma Rgeb_true (x y : R) : (x >=? y) = true <-> y <= x.
Proof.
  unfold Rgeb; destruct (Rge_dec x y) as [H|H]; split; intros; try easy.
  - lra.
  - exfalso; apply H; lra.
Qed.

Lemma Reqb_true (x y : R) : (x =? y) = true <-> x = y.
Proof. unfold Reqb; destruct (Req_dec_T x y); split; intros; congruence || easy. Qed.

Lemma Rltb_false (x y : R) : (x <? y) = false <-> y <= x.
Proof.
  unfold Rltb; destruct (Rlt_dec x y); split; intros; try easy; lra.
Qed.

Lemma Rleb_false (x y : R) : (x <=? y) = false <-> y < x.
Proof.
  unfold Rleb; destruct (Rle_dec x y); split; intros; try easy; lra.
Qed.

Lemma Rgtb_false (x y : R) : (x >? y) = false <-> x <= y.
Proof.
  unfold Rgtb; destruct (Rgt_dec x y); split; intros; try easy; lra.
Qed.

Lemma Rgeb_false (x y : R) : (x >=? y) = false <-> x < y.
Proof.
  unfold Rgeb; destruct (Rge_dec x y); split; intros; try easy; lra.
Qed.


(** Replace every comparison by its two outcomes, dropping at once the
    outcome the context excludes. *)
Ltac cases_on_order :=
  unfold falsy, js_or, defined, opt_lt, opt_le, opt_gt, opt_ge,
         Rltb, Rleb, Rgtb, Rgeb, Reqb in *;
  repeat (match goal with
  | |- context [Rlt_dec ?a ?b] => destruct (Rlt_dec a b)
  | |- context [Rle_dec ?a ?b] => destruct (Rle_dec a b)
  | |- context [Rgt_dec ?a ?b] => destruct (Rgt_dec a b)
  | |- context [Rge_dec ?a ?b] => destruct (Rge_dec a b)
  | |- context [Req_dec_T ?a ?b] => destruct (Req_dec_T a b)
  | H : context [Rlt_dec ?a ?b] |- _ => destruct (Rlt_dec a b)
  | H : context [Rle_dec ?a ?b] |- _ => destruct (Rle_dec a b)
  | H : context [Rgt_dec ?a ?b] |- _ => destruct (Rgt_dec a b)
  | H : context [Rge_dec ?a ?b] |- _ => destruct (Rge_dec a b)
  | H : context [Req_dec_T ?a ?b] |- _ => destruct (Req_dec_T a b)
  end; try (exfalso; lra));
  simpl in *; try lra; try congruence.

(** ** The helpers *)

Lemma adjust_cases (u : R) :
  (0.1 <= u -> adjust u = u)
  /\ (0 <= u < 0.1 -> adjust u = 0.1)
  /\ (u < 0 -> adjust u = u).
Proof. unfold adjust; repeat split; intros; cases_on_order. Qed.

Lemma adjust_positive (u : R) : 0 <= u -> 0 < adjust u.
Proof. intros; unfold adjust; cases_on_order. Qed.

Lemma mmol_conversion_linear (a b : R) :
  mmol_conversion (a - b) = mmol_conversion a - mmol_conversion b.
Proof. unfold mmol_conversion; ring. Qed.

Lemma sdicat_values (s : R) : sdicat s = 0 \/ sdicat s = 1 \/ sdicat s = 2.
Proof. unfold sdicat; cases_on_order; auto. Qed.

Example sdicat_examples :
  sdicat 3 = 0 /\ sdicat 4 = 1 /\ sdicat 6 = 1 /\ sdicat 7 = 2
  /\ sdicat 10 = 2 /\ sdicat 11 = 0 /\ sdicat 0 = 0.
Proof. unfold sdicat; repeat split; cases_on_order. Qed.

Example mmol_conversion_200 : mmol_conversion 200 = 5.172.
Proof. unfold mmol_conversion; lra. Qed.

(** ** The validation blocks only ever null scores *)

Section Preservation.

(** A property of the locals that each of the three assignments keeps. *)
Variable Q : PreventResults -> Prop.
Hypothesis Q_null_CVD_ASCVD : forall r, Q r -> Q (null_CVD_ASCVD r).
Hypothesis Q_null_HF : forall r, Q r -> Q (null_HF r).
Hypothesis Q_null_all : forall r, Q r -> Q (null_all r).

Lemma when_preserves (c : bool) (f : PreventResults -> PreventResults) :
  (forall r, Q r -> Q (f r)) -> forall r, Q r -> Q (when c f r).
Proof. intros Hf r Hr; destruct c; simpl; auto. Qed.

Lemma missing_variable_checks_preserve (p : PreventInputs) (r : PreventResults) :
  Q r -> Q (missing_variable_checks p r).
Proof.
  intros Hr; destruct p; unfold missing_variable_checks.
  repeat (apply when_preserves; [assumption|]); exact Hr.
Qed.

Lemma optional_variable_checks_preserve (p : PreventInputs) (r : PreventResults) :
  Q r -> Q (optional_variable_checks p r).
Proof.
  intros Hr; destruct p; unfold optional_variable_checks.
  repeat (apply when_preserves; [assumption|]); exact Hr.
Qed.

End Preservation.

Lemma model_missing_variable_checks (p : PreventInputs) (r : PreventResults) :
  model (missing_variable_checks p r) = model r.
Proof.
  apply (missing_variable_checks_preserve (fun r' => model r' = model r));
    simpl; auto.
Qed.

Lemma model_optional_variable_checks (p : PreventInputs) (r : PreventResults) :
  model (optional_variable_checks p r) = model r.
Proof.
  apply (optional_variable_checks_preserve (fun r' => model r' = model r));
    simpl; auto.
Qed.

Lemma model_preventBase (p : PreventInputs) : model (preventBase p) = Base.
Proof.
  unfold preventBase.
  destruct (negb (sex p =? 0) && negb (sex p =? 1)); [reflexivity|].
  destruct ((age p <? 30) || (age p >? 79)); [reflexivity|].
  cbv zeta; rewrite model_missing_variable_checks; reflexivity.
Qed.

Lemma model_preventFull (p : PreventInputs) : model (preventFull p) = Full.
Proof.
  unfold preventFull.
  destruct (negb (sex p =? 0) && negb (sex p =? 1)); [reflexivity|].
  destruct ((age p <? 30) || (age p >? 79)); [reflexivity|].
  cbv zeta; rewrite model_optional_variable_checks,
    model_missing_variable_checks; reflexivity.
Qed.

(** ** Entering the equations: the two guards on sex and age *)

Lemma sex_guard (p : PreventInputs) :
  valid_sex p -> negb (sex p =? 0) && negb (sex p =? 1) = false.
Proof. intros [H|H]; rewrite H; cases_on_order. Qed.

Lemma age_guard (p : PreventInputs) :
  valid_age p -> (age p <? 30) || (age p >? 79) = false.
Proof. intros [H1 H2]; cases_on_order. Qed.

Lemma calculate30yr_old (p : PreventInputs) :
  59 < age p -> (age p <=? 59) = false.
Proof. intros H; apply Rleb_false; exact H. Qed.

Lemma calculate30yr_young (p : PreventInputs) :
  age p <= 59 -> (age p <=? 59) = true.
Proof. intros H; apply Rleb_true; exact H. Qed.

(** ** When nothing is missing or out of range, the blocks change nothing *)

Lemma missing_variable_checks_valid (p : PreventInputs) (r : PreventResults) :
  present_within (tc p) 130 320 -> present_within (hdl p) 20 100 ->
  90 <= sbp p <= 200 -> 0 < egfr p -> statin p <> None ->
  (exists b, bmi p = Some b /\ 18.5 <= b < 40) ->
  missing_variable_checks p r = r.
Proof.
  destruct p as [sx ag t h sb d sm bm eg bp st ua hb sd]; simpl.
  intros (tv & -> & Ht) (hv & -> & Hh) Hs He Hst (bv & -> & Hb).
  destruct st as [stv|]; [|congruence].
  unfold missing_variable_checks, when; cases_on_order.
Qed.

Lemma optional_variable_checks_valid (p : PreventInputs) (r : PreventResults) :
  (forall u, uacr p = Some u -> 0 <= u) ->
  (forall h, hba1c p = Some h -> 0 < h) ->
  (forall s, sdi p = Some s -> 1 <= s <= 10) ->
  optional_variable_checks p r = r.
Proof.
  destruct p as [sx ag t h sb d sm bm eg bp st ua hb sd]; simpl.
  intros Hu Hh Hs.
  unfold optional_variable_checks, when.
  destruct ua as [u|]; [specialize (Hu u eq_refl)|clear Hu];
  destruct hb as [hv|]; [specialize (Hh hv eq_refl)|clear Hh
                        |specialize (Hh hv eq_refl)|clear Hh];
  (destruct sd as [s|]; [specialize (Hs s eq_refl)|clear Hs]);
  cases_on_order.
Qed.

(** ** What triggers the blocks *)

Lemma missing_lipids_null (p : PreventInputs) (r : PreventResults) :
  absent_or_outside (tc p) 130 320 \/ absent_or_outside (hdl p) 20 100
  \/ statin p = None ->
  no_CVD_ASCVD_score (missing_variable_checks p r).
Proof.
  destruct p as [sx ag t h sb d sm bm eg bp st ua hb sd]; simpl.
  intros H.
  assert (E : (falsy t || opt_lt t 130 || opt_gt t 320) = true
              \/ (falsy h || opt_lt h 20 || opt_gt h 100) = true
              \/ negb (defined st) = true).
  { destruct H as [[->|(v & -> & Hv)]|[[->|(v & -> & Hv)]| ->]]; auto.
    - left; destruct Hv; cases_on_order.
    - right; left; destruct Hv; cases_on_order. }
  unfold missing_variable_checks.
  destruct (falsy t || opt_lt t 130 || opt_gt t 320);
  destruct (falsy h || opt_lt h 20 || opt_gt h 100);
  destruct (negb (defined st));
  try (exfalso; destruct E as [E|[E|E]]; discriminate);
  destruct ((sb <? 90) || (sb >? 200));
  destruct (eg <=? 0);
  destruct (falsy bm || opt_lt bm 18.5 || opt_ge bm 40);
  repeat split.
Qed.

Lemma optional_out_of_range_null (p : PreventInputs) (r : PreventResults) :
  optional_out_of_range p -> no_score (optional_variable_checks p r).
Proof.
  destruct p as [sx ag t h sb d sm bm eg bp st ua hb sd]; simpl.
  unfold optional_out_of_range; simpl; intros H.
  assert (E : (defined ua && opt_lt ua 0) = true
              \/ (defined hb && opt_le hb 0) = true
              \/ (defined sd && (opt_lt sd 1 || opt_gt sd 10)) = true).
  { destruct H as [(v & -> & Hv)|[(v & -> & Hv)|(v & -> & Hv)]].
    - left; cases_on_order.
    - right; left; cases_on_order.
    - right; right; destruct Hv; cases_on_order. }
  unfold optional_variable_checks.
  destruct (defined ua && opt_lt ua 0);
  destruct (defined hb && opt_le hb 0);
  destruct (defined sd && (opt_lt sd 1 || opt_gt sd 10));
  try (exfalso; destruct E as [E|[E|E]]; discriminate);
  repeat split.
Qed.

(** ** The heart-failure scores never look at the cholesterol panel *)

Lemma HF_logor_lipids (p q : PreventInputs) :
  differ_only_in_lipids p q ->
  (base_female_logor_10yr_HF p = base_female_logor_10yr_HF q
   /\ base_female_logor_30yr_HF p = base_female_logor_30yr_HF q
   /\ base_male_logor_10yr_HF p = base_male_logor_10yr_HF q
   /\ base_male_logor_30yr_HF p = base_male_logor_30yr_HF q)
  /\ (full_female_logor_10yr_HF p = full_female_logor_10yr_HF q
      /\ full_female_logor_30yr_HF p = full_female_logor_30yr_HF q
      /\ full_male_logor_10yr_HF p = full_male_logor_10yr_HF q
      /\ full_male_logor_30yr_HF p = full_male_logor_30yr_HF q).
Proof.
  destruct p, q; unfold differ_only_in_lipids; simpl.
  intros (-> & -> & -> & -> & -> & -> & -> & -> & -> & -> & ->).
  repeat split.
Qed.

Lemma HF_missing_variable_checks (p q : PreventInputs) (r r' : PreventResults) :
  differ_only_in_lipids p q ->
  prevent_10yr_HF r = prevent_10yr_HF r' ->
  prevent_30yr_HF r = prevent_30yr_HF r' ->
  prevent_10yr_HF (missing_variable_checks p r)
    = prevent_10yr_HF (missing_variable_checks q r')
  /\ prevent_30yr_HF (missing_variable_checks p r)
     = prevent_30yr_HF (missing_variable_checks q r').
Proof.
  destruct p as [sx ag t h sb d sm bm eg bp st ua hb sd].
  destruct q as [sx' ag' t' h' sb' d' sm' bm' eg' bp' st' ua' hb' sd'].
  unfold differ_only_in_lipids; simpl.
  intros (-> & -> & -> & -> & -> & -> & -> & -> & -> & -> & ->) H10 H30.
  unfold missing_variable_checks.
  destruct ((sb' <? 90) || (sb' >? 200));
  destruct (eg' <=? 0);
  destruct (falsy bm' || opt_lt bm' 18.5 || opt_ge bm' 40);
  destruct (falsy t || opt_lt t 130 || opt_gt t 320);
  destruct (falsy h || opt_lt h 20 || opt_gt h 100);
  destruct (negb (defined st));
  destruct (falsy t' || opt_lt t' 130 || opt_gt t' 320);
  destruct (falsy h' || opt_lt h' 20 || opt_gt h' 100);
  destruct (negb (defined st'));
  simpl; auto.
Qed.

Lemma HF_optional_variable_checks (p q : PreventInputs) (r r' : PreventResults) :
  differ_only_in_lipids p q ->
  prevent_10yr_HF r = prevent_10yr_HF r' ->
  prevent_30yr_HF r = prevent_30yr_HF r' ->
  prevent_10yr_HF (optional_variable_checks p r)
    = prevent_10yr_HF (optional_variable_checks q r')
  /\ prevent_30yr_HF (optional_variable_checks p r)
     = prevent_30yr_HF (optional_variable_checks q r').
Proof.
  destruct p as [sx ag t h sb d sm bm eg bp st ua hb sd].
  destruct q as [sx' ag' t' h' sb' d' sm' bm' eg' bp' st' ua' hb' sd'].
  unfold differ_only_in_lipids; simpl.
  intros (-> & -> & -> & -> & -> & -> & -> & -> & -> & -> & ->) H10 H30.
  unfold optional_variable_checks.
  destruct (defined ua' && opt_lt ua' 0);
  destruct (defined hb' && opt_le hb' 0);
  destruct (defined sd' && (opt_lt sd' 1 || opt_gt sd' 10));
  simpl; auto.
Qed.

Lemma HF_lipids (p q : PreventInputs) :
  differ_only_in_lipids p q ->
  prevent_10yr_HF (calculatePreventRisk p)
    = prevent_10yr_HF (calculatePreventRisk q)
  /\ prevent_30yr_HF (calculatePreventRisk p)
     = prevent_30yr_HF (calculatePreventRisk q).
Proof.
  intros H.
  destruct (HF_logor_lipids p q H)
    as ((B1 & B2 & B3 & B4) & (F1 & F2 & F3 & F4)).
  pose proof H as (Hsex & Hage & _ & _ & _ & _ & _ & _ & Hu & Hh & Hs).
  unfold calculatePreventRisk, preventBase, preventFull; cbv zeta.
  rewrite Hsex, Hage, Hu, Hh, Hs.
  destruct (defined (uacr q) || defined (hba1c q) || defined (sdi q));
  (destruct (negb (sex q =? 0) && negb (sex q =? 1)); [split; reflexivity|]);
  (destruct ((age q <? 30) || (age q >? 79)); [split; reflexivity|]).
  - apply HF_optional_variable_checks; [exact H| |];
      apply HF_missing_variable_checks; try exact H; simpl;
      rewrite ?F1, ?F2, ?F3, ?F4; reflexivity.
  - apply HF_missing_variable_checks; try exact H; simpl;
      rewrite ?B1, ?B2, ?B3, ?B4; reflexivity.
Qed.

(** ** The logistic transform *)








(** ** Shape of a call on inputs that pass the guards *)

Lemma has_optional_true (p : PreventInputs) :
  has_optional p ->
  defined (uacr p) || defined (hba1c p) || defined (sdi p) = true.
Proof.
  unfold has_optional.
  destruct (uacr p), (hba1c p), (sdi p); simpl; intros [H|[H|H]];
    congruence.
Qed.

Lemma no_optional_false (p : PreventInputs) :
  uacr p = None -> hba1c p = None -> sdi p = None ->
  defined (uacr p) || defined (hba1c p) || defined (sdi p) = false.
Proof. intros -> -> ->; reflexivity. Qed.

Lemma model_calculatePreventRisk (p : PreventInputs) :
  model (calculatePreventRisk p)
  = if defined (uacr p) || defined (hba1c p) || defined (sdi p)
    then Full else Base.
Proof.
  unfold calculatePreventRisk; cbv zeta.
  destruct (defined (uacr p) || defined (hba1c p) || defined (sdi p));
    [apply model_preventFull|apply model_preventBase].
Qed.

Lemma no_CVD_ASCVD_score_optional (p : PreventInputs) (r : PreventResults) :
  no_CVD_ASCVD_score r -> no_CVD_ASCVD_score (optional_variable_checks p r).
Proof.
  intros Hr; apply optional_variable_checks_preserve; try exact Hr;
    intros r0 (H1 & H2 & H3 & H4); unfold no_CVD_ASCVD_score; simpl;
    auto.
Qed.

Lemma optional_variable_checks_in_range (p : PreventInputs) (r : PreventResults) :
  ~ optional_out_of_range p -> optional_variable_checks p r = r.
Proof.
  intros Hopt; apply optional_variable_checks_valid.
  - intros u Hu; destruct (Rle_dec 0 u) as [H|H]; [exact H|].
    exfalso; apply Hopt; left; exists u; split; [exact Hu|lra].
  - intros h Hh; destruct (Rlt_dec 0 h) as [H|H]; [exact H|].
    exfalso; apply Hopt; right; left; exists h; split; [exact Hh|lra].
  - intros s Hs; destruct (Rle_dec 1 s) as [H1|H1];
      destruct (Rle_dec s 10) as [H2|H2]; try (split; assumption);
      exfalso; apply Hopt; right; right; exists s;
      (split; [exact Hs|lra]).
Qed.

Lemma HF_missing_variable_checks_valid (p : PreventInputs) (r : PreventResults) :
  90 <= sbp p <= 200 -> 0 < egfr p ->
  (exists b, bmi p = Some b /\ 18.5 <= b < 40) ->
  prevent_10yr_HF (missing_variable_checks p r) = prevent_10yr_HF r
  /\ prevent_30yr_HF (missing_variable_checks p r) = prevent_30yr_HF r.
Proof.
  destruct p as [sx ag t h sb d sm bm eg bp st ua hb sd]; simpl.
  intros Hs He (bv & -> & Hb).
  assert (E1 : (sb <? 90) || (sb >? 200) = false) by cases_on_order.
  assert (E2 : (eg <=? 0) = false) by cases_on_order.
  assert (E3 : falsy (Some bv) || opt_lt (Some bv) 18.5
               || opt_ge (Some bv) 40 = false) by cases_on_order.
  unfold missing_variable_checks; rewrite E1, E2, E3.
  destruct (falsy t || opt_lt t 130 || opt_gt t 320);
  destruct (falsy h || opt_lt h 20 || opt_gt h 100);
  destruct (negb (defined st)); split; reflexivity.
Qed.

Lemma no_30yr_score_calculatePreventRisk (p : PreventInputs) :
  59 < age p -> no_30yr_score (calculatePreventRisk p).
Proof.
  intros Hold.
  unfold calculatePreventRisk, preventBase, preventFull; cbv zeta.
  rewrite (calculate30yr_old p Hold).
  destruct (defined (uacr p) || defined (hba1c p) || defined (sdi p));
  (destruct (negb (sex p =? 0) && negb (sex p =? 1));
     [repeat split|]);
  (destruct ((age p <? 30) || (age p >? 79)); [repeat split|]).
  - apply optional_variable_checks_preserve;
      try (intros r (? & ? & ?); repeat split; assumption).
    apply missing_variable_checks_preserve;
      try (intros r (? & ? & ?); repeat split; assumption).
    repeat split.
  - apply missing_variable_checks_preserve;
      try (intros r (? & ? & ?); repeat split; assumption).
    repeat split.
Qed.

Lemma horizons_coupled_checks (p : PreventInputs) (r : PreventResults) :
  horizons_coupled r ->
  horizons_coupled (missing_variable_checks p r)
  /\ horizons_coupled (optional_variable_checks p (missing_variable_checks p r)).
Proof.
  intros Hr.
  assert (Hm : horizons_coupled (missing_variable_checks p r)).
  { apply missing_variable_checks_preserve; try exact Hr;
      intros r0 (H1 & H2 & H3); unfold horizons_coupled; simpl;
      tauto. }
  split; [exact Hm|].
  apply optional_variable_checks_preserve; try exact Hm;
    intros r0 (H1 & H2 & H3); unfold horizons_coupled; simpl; tauto.
Qed.

Lemma calculatePreventRisk_all_valid (p : PreventInputs) :
  valid_sex p -> valid_age p -> others_valid p ->
  exists a b c d e f m,
    calculatePreventRisk p = converted (age p <=? 59) a b c d e f m.
Proof.
  intros Hsex Hage (Hs & He & Ht & Hh & Hst & Hb & Hu & Hhb & Hsd).
  unfold calculatePreventRisk, preventBase, preventFull; cbv zeta.
  rewrite (sex_guard p Hsex), (age_guard p Hage).
  destruct (defined (uacr p) || defined (hba1c p) || defined (sdi p)).
  - rewrite optional_variable_checks_valid by assumption.
    rewrite missing_variable_checks_valid by assumption.
    do 7 eexists; reflexivity.
  - rewrite missing_variable_checks_valid by assumption.
    do 7 eexists; reflexivity.
Qed.

Lemma scenario_A_valid :
  valid_sex scenario_A /\ valid_age scenario_A /\ others_valid scenario_A.
Proof.
  split; [left; reflexivity|].
  split; [unfold valid_age; simpl; lra|].
  unfold others_valid, present_within; simpl.
  split; [lra|]. split; [lra|].
  split; [exists 180; split; [reflexivity|lra]|].
  split; [exists 50; split; [reflexivity|lra]|].
  split; [discriminate|].
  split; [exists 24; split; [reflexivity|lra]|].
  split; [discriminate|]. split; discriminate.
Qed.

Lemma scenario_C_valid :
  valid_sex scenario_C /\ valid_age scenario_C /\ others_valid scenario_C.
Proof.
  split; [right; reflexivity|].
  split; [unfold valid_age; simpl; lra|].
  unfold others_valid, present_within; simpl.
  split; [lra|]. split; [lra|].
  split; [exists 180; split; [reflexivity|lra]|].
  split; [exists 50; split; [reflexivity|lra]|].
  split; [discriminate|].
  split; [exists 24; split; [reflexivity|lra]|].
  split; [discriminate|]. split; [discriminate|].
  intros s [= <-]; lra.
Qed.

Lemma scenario_A_B_lipids : differ_only_in_lipids scenario_B scenario_A.
Proof. unfold differ_only_in_lipids; simpl; repeat split. Qed.

(** * The claims *)

(** C1. For every input record, the [model] tag of the result of
    [calculatePreventRisk] is [Full] when at least one of [uacr], [hba1c],
    [sdi] is defined and [Base] when none is; nothing is assumed on the
    ranges of these values, nor on sex, age or any other field. *)
Theorem model_reflects_presence (p : PreventInputs) :
  (has_optional p -> model (calculatePreventRisk p) = Full)
  /\ (uacr p = None /\ hba1c p = None /\ sdi p = None ->
      model (calculatePreventRisk p) = Base).
Proof.
  rewrite model_calculatePreventRisk; split.
  - intros H; rewrite (has_optional_true p H); reflexivity.
  - intros (Hu & Hh & Hs); rewrite (no_optional_false p Hu Hh Hs).
    reflexivity.
Qed.

Lemma model_reflects_presence_witness :
  model (calculatePreventRisk scenario_negative_uacr) = Full
  /\ model (calculatePreventRisk scenario_A) = Base.
Proof.
  split.
  - apply (proj1 (model_reflects_presence scenario_negative_uacr)).
    left; discriminate.
  - apply (proj2 (model_reflects_presence scenario_A)).
    repeat split.
Defined.

(** C2. With valid sex and age in [30,79], age > 59 makes the three
    30-year scores null whatever the other inputs are; at age 65 with every
    other input valid the three 10-year scores are non-null. *)
Theorem horizon_gate (p : PreventInputs) :
  valid_sex p -> valid_age p -> 59 < age p ->
  no_30yr_score (calculatePreventRisk p)
  /\ (age p = 65 -> others_valid p ->
      prevent_10yr_CVD (calculatePreventRisk p) <> None
      /\ prevent_10yr_ASCVD (calculatePreventRisk p) <> None
      /\ prevent_10yr_HF (calculatePreventRisk p) <> None).
Proof.
  intros Hsex Hage Hold; split.
  - apply no_30yr_score_calculatePreventRisk; exact Hold.
  - intros _ Hval.
    destruct (calculatePreventRisk_all_valid p Hsex Hage Hval)
      as (a & b & c & d & e & f & m & ->).
    simpl; repeat split; discriminate.
Qed.

Lemma horizon_gate_witness :
  no_30yr_score (calculatePreventRisk scenario_C)
  /\ prevent_10yr_CVD (calculatePreventRisk scenario_C) <> None
  /\ prevent_10yr_ASCVD (calculatePreventRisk scenario_C) <> None
  /\ prevent_10yr_HF (calculatePreventRisk scenario_C) <> None.
Proof.
  destruct scenario_C_valid as (Hsex & Hage & Hval).
  assert (Hold : 59 < age scenario_C) by (simpl; lra).
  destruct (horizon_gate scenario_C Hsex Hage Hold) as [H30 H10].
  split; [exact H30|].
  apply H10; [reflexivity|exact Hval].
Defined.

(** C3. When the full model is selected and sex and age are valid, a
    supplied [uacr] below 0, a supplied [hba1c] at or below 0, or a supplied
    [sdi] outside [1,10] nulls all six scores, whatever the cholesterol
    panel and BMI blocks had kept. *)
Theorem optional_range_nulls_all (p : PreventInputs) :
  has_optional p -> valid_sex p -> valid_age p ->
  optional_out_of_range p ->
  no_score (calculatePreventRisk p).
Proof.
  intros Hopt Hsex Hage Hbad.
  unfold calculatePreventRisk; cbv zeta.
  rewrite (has_optional_true p Hopt).
  unfold preventFull; cbv zeta.
  rewrite (sex_guard p Hsex), (age_guard p Hage).
  apply optional_out_of_range_null; exact Hbad.
Qed.

Lemma optional_range_nulls_all_witness :
  no_score (calculatePreventRisk scenario_negative_uacr).
Proof.
  apply (optional_range_nulls_all scenario_negative_uacr).
  - left; discriminate.
  - left; reflexivity.
  - unfold valid_age; simpl; lra.
  - left; exists (-1); split; [reflexivity|lra].
Defined.

Lemma lipids_null_calculatePreventRisk (p : PreventInputs) :
  valid_sex p -> valid_age p ->
  absent_or_outside (tc p) 130 320 \/ absent_or_outside (hdl p) 20 100
  \/ statin p = None ->
  no_CVD_ASCVD_score (calculatePreventRisk p).
Proof.
  intros Hsex Hage Hlip.
  unfold calculatePreventRisk, preventBase, preventFull; cbv zeta.
  rewrite (sex_guard p Hsex), (age_guard p Hage).
  destruct (defined (uacr p) || defined (hba1c p) || defined (sdi p)).
  - apply no_CVD_ASCVD_score_optional, missing_lipids_null; exact Hlip.
  - apply missing_lipids_null; exact Hlip.
Qed.

Lemma HF_present_calculatePreventRisk (p : PreventInputs) :
  valid_sex p -> valid_age p -> 90 <= sbp p <= 200 -> 0 < egfr p ->
  (exists b, bmi p = Some b /\ 18.5 <= b < 40) ->
  ~ optional_out_of_range p ->
  prevent_10yr_HF (calculatePreventRisk p) <> None
  /\ (age p <= 59 -> prevent_30yr_HF (calculatePreventRisk p) <> None).
Proof.
  intros Hsex Hage Hsbp Hegfr Hbmi Hopt.
  pose proof (fun r => optional_variable_checks_in_range p r Hopt) as Hov.
  unfold calculatePreventRisk, preventBase, preventFull; cbv zeta.
  rewrite (sex_guard p Hsex), (age_guard p Hage).
  destruct (defined (uacr p) || defined (hba1c p) || defined (sdi p));
    rewrite ?Hov;
    match goal with
    | |- context [missing_variable_checks p ?r] =>
        destruct (HF_missing_variable_checks_valid p r Hsbp Hegfr Hbmi)
          as [-> ->]
    end; simpl;
    (split; [discriminate
            |intros Hy; rewrite (calculate30yr_young p Hy); discriminate]).
Qed.

(** C4. With valid sex, age, sbp and egfr, a cholesterol panel that is
    incomplete or out of range ([tc] absent or outside [130,320], [hdl]
    absent or outside [20,100], or [statin] undefined) nulls the four CVD
    and ASCVD scores and leaves the two HF scores as they are for any other
    panel: they are non-null as soon as BMI is in range and no optional
    variable is out of range (the 30-year one up to age 59).  In scenario B
    the four CVD and ASCVD scores are null, both HF scores are non-null and
    the model is [Base]. *)
Theorem lipid_gate :
  (forall p : PreventInputs,
     valid_sex p -> valid_age p -> 90 <= sbp p <= 200 -> 0 < egfr p ->
     absent_or_outside (tc p) 130 320 \/ absent_or_outside (hdl p) 20 100
     \/ statin p = None ->
     no_CVD_ASCVD_score (calculatePreventRisk p)
     /\ (forall q, differ_only_in_lipids p q ->
           prevent_10yr_HF (calculatePreventRisk p)
             = prevent_10yr_HF (calculatePreventRisk q)
           /\ prevent_30yr_HF (calculatePreventRisk p)
              = prevent_30yr_HF (calculatePreventRisk q))
     /\ ((exists b, bmi p = Some b /\ 18.5 <= b < 40) ->
         ~ optional_out_of_range p ->
         prevent_10yr_HF (calculatePreventRisk p) <> None
         /\ (age p <= 59 -> prevent_30yr_HF (calculatePreventRisk p) <> None)))
  /\ (no_CVD_ASCVD_score (calculatePreventRisk scenario_B)
      /\ prevent_10yr_HF (calculatePreventRisk scenario_B) <> None
      /\ prevent_30yr_HF (calculatePreventRisk scenario_B) <> None
      /\ model (calculatePreventRisk scenario_B) = Base).
Proof.
  split.
  - intros p Hsex Hage Hsbp Hegfr Hlip; split; [|split].
    + apply lipids_null_calculatePreventRisk; assumption.
    + intros q Hq; apply HF_lipids; exact Hq.
    + intros Hbmi Hopt; apply HF_present_calculatePreventRisk; assumption.
  - destruct scenario_A_valid
      as (Hsex & Hage & (Hsbp & Hegfr & _ & _ & _ & Hbmi & _)).
    assert (Hopt : ~ optional_out_of_range scenario_B).
    { intros [(u & Hu & _)|[(h & Hh & _)|(s & Hs & _)]]; discriminate. }
    destruct (HF_present_calculatePreventRisk scenario_B
                Hsex Hage Hsbp Hegfr Hbmi Hopt) as [H10 H30].
    split; [|split; [exact H10|split]].
    + apply lipids_null_calculatePreventRisk;
        [exact Hsex|exact Hage|left; left; reflexivity].
    + apply H30; simpl; lra.
    + rewrite model_calculatePreventRisk; reflexivity.
Qed.

Lemma lipid_gate_witness :
  no_CVD_ASCVD_score (calculatePreventRisk scenario_B)
  /\ prevent_10yr_HF (calculatePreventRisk scenario_B)
     = prevent_10yr_HF (calculatePreventRisk scenario_A)
  /\ prevent_10yr_HF (calculatePreventRisk scenario_B) <> None.
Proof.
  destruct scenario_A_valid
    as (Hsex & Hage & (Hsbp & Hegfr & _ & _ & _ & Hbmi & _)).
  assert (Hlip : absent_or_outside (tc scenario_B) 130 320
                 \/ absent_or_outside (hdl scenario_B) 20 100
                 \/ statin scenario_B = None) by (left; left; reflexivity).
  destruct (proj1 lipid_gate scenario_B Hsex Hage Hsbp Hegfr Hlip)
    as (Hnull & Hsame & Hhf).
  split; [exact Hnull|split].
  - apply (Hsame scenario_A), scenario_A_B_lipids.
  - apply Hhf; [exact Hbmi|].
    intros [(u & Hu & _)|[(h & Hh & _)|(s & Hs & _)]]; discriminate.
Defined.




(** The logarithm of the UACR term is only observed on a positive
    argument: a negative [uacr] leaves no score. *)
Lemma logarithm_on_positive (p : PreventInputs) (u v : R) :
  uacr p = Some u -> score_of (calculatePreventRisk p) v -> 0 < adjust u.
Proof.
  intros Hu Hv.
  destruct (Rle_dec 0 u) as [Hpos|Hneg]; [apply adjust_positive; exact Hpos|].
  exfalso.
  assert (Hnone : no_score (calculatePreventRisk p)).
  { unfold calculatePreventRisk; cbv zeta.
    rewrite has_optional_true by (left; congruence).
    unfold preventFull; cbv zeta.
    destruct (negb (sex p =? 0) && negb (sex p =? 1)); [repeat split|].
    destruct ((age p <? 30) || (age p >? 79)); [repeat split|].
    apply optional_out_of_range_null.
    left; exists u; split; [exact Hu|lra]. }
  destruct Hnone as (H1 & H2 & H3 & H4 & H5 & H6).
  unfold score_of in Hv; rewrite H1, H2, H3, H4, H5, H6 in Hv.
  destruct Hv as [H|[H|[H|[H|[H|H]]]]]; discriminate.
Qed.

(** C6. [adjust] returns its argument when it is at least 0.1, returns 0.1
    when it lies in [0, 0.1), and returns its argument otherwise, negative
    values included; [adjust 0.05 = 0.1], [adjust 0.1 = 0.1] and
    [adjust 5 = 5]. *)
Theorem adjust_spec :
  (forall u : R,
     (0.1 <= u -> adjust u = u)
     /\ (0 <= u < 0.1 -> adjust u = 0.1)
     /\ (~ 0.1 <= u -> ~ 0 <= u < 0.1 -> adjust u = u)
     /\ (u < 0 -> adjust u = u))
  /\ adjust 0.05 = 0.1 /\ adjust 0.1 = 0.1 /\ adjust 5 = 5.
Proof.
  split.
  - intros u; destruct (adjust_cases u) as (H1 & H2 & H3).
    repeat split; try assumption.
    intros N1 N2; apply H3; lra.
  - repeat split.
    + apply (proj1 (proj2 (adjust_cases 0.05))); lra.
    + apply (proj1 (adjust_cases 0.1)); lra.
    + apply (proj1 (adjust_cases 5)); lra.
Qed.

Lemma adjust_spec_witness : adjust (-2) = -2 /\ adjust 0 = 0.1 /\ adjust 7 = 7.
Proof.
  destruct (proj1 adjust_spec (-2)) as (_ & _ & _ & Hneg).
  destruct (proj1 adjust_spec 0) as (_ & Hlow & _).
  destruct (proj1 adjust_spec 7) as (Hhigh & _).
  split; [apply Hneg; lra|split; [apply Hlow; lra|apply Hhigh; lra]].
Defined.

(** C7. For all real [tc] and [hdl], the cholesterol delta term of the CVD
    formulas, [mmol_conversion (tc - hdl) - 3.5], equals the grouping of the
    ASCVD formulas, [mmol_conversion tc - mmol_conversion hdl - 3.5];
    [mmol_conversion] is the linear map [x |-> 0.02586 * x].  The same holds
    with the operands as the formulas read them, [tc || 0] and
    [hdl || 0]. *)
Theorem cholesterol_delta_groupings :
  (forall tc hdl : R,
     mmol_conversion (tc - hdl) - 3.5
     = mmol_conversion tc - mmol_conversion hdl - 3.5)
  /\ (forall x : R, mmol_conversion x = 0.02586 * x)
  /\ (forall tc hdl : option R,
        mmol_conversion ((tc |? 0) - (hdl |? 0)) - 3.5
        = mmol_conversion (tc |? 0) - mmol_conversion (hdl |? 0) - 3.5).
Proof.
  split; [|split].
  - intros t h; rewrite mmol_conversion_linear; reflexivity.
  - intros x; reflexivity.
  - intros t h; rewrite mmol_conversion_linear; reflexivity.
Qed.

(** C8. The [model] tag of the result of [calculatePreventRisk] is always
    [Base] or [Full]; the tags [Uacr], [Hba1c] and [Sdi] that the result
    type also admits are never produced. *)
Theorem model_base_or_full (p : PreventInputs) :
  (model (calculatePreventRisk p) = Base
   \/ model (calculatePreventRisk p) = Full)
  /\ model (calculatePreventRisk p) <> Uacr
  /\ model (calculatePreventRisk p) <> Hba1c
  /\ model (calculatePreventRisk p) <> Sdi.
Proof.
  rewrite model_calculatePreventRisk.
  destruct (defined (uacr p) || defined (hba1c p) || defined (sdi p));
    repeat split; auto; discriminate.
Qed.

(** C9. With valid sex and age in [30,59], the two horizons of each
    endpoint are null together: [prevent_10yr_CVD] is null iff
    [prevent_30yr_CVD] is, and likewise for ASCVD and for HF. *)
Theorem horizons_null_together (p : PreventInputs) :
  valid_sex p -> 30 <= age p <= 59 ->
  horizons_coupled (calculatePreventRisk p).
Proof.
  intros Hsex [Hlo Hhi].
  assert (Hage : valid_age p) by (unfold valid_age; lra).
  unfold calculatePreventRisk, preventBase, preventFull; cbv zeta.
  rewrite (sex_guard p Hsex), (age_guard p Hage),
    (calculate30yr_young p Hhi).
  destruct (defined (uacr p) || defined (hba1c p) || defined (sdi p));
    apply horizons_coupled_checks;
    unfold horizons_coupled; simpl; repeat split; discriminate.
Qed.

Lemma horizons_null_together_witness :
  horizons_coupled (calculatePreventRisk scenario_B).
Proof.
  apply (horizons_null_together scenario_B).
  - left; reflexivity.
  - simpl; lra.
Defined.

(** C10. Two inputs that differ only in [tc], [hdl] and [statin] get the
    same [prevent_10yr_HF] and the same [prevent_30yr_HF], null or not and
    with the same value. *)
Theorem HF_independent_of_lipids (p q : PreventInputs) :
  differ_only_in_lipids p q ->
  prevent_10yr_HF (calculatePreventRisk p)
    = prevent_10yr_HF (calculatePreventRisk q)
  /\ prevent_30yr_HF (calculatePreventRisk p)
     = prevent_30yr_HF (calculatePreventRisk q).
Proof. intros H; apply HF_lipids; exact H. Qed.

Lemma HF_independent_of_lipids_witness :
  prevent_10yr_HF (calculatePreventRisk scenario_B)
    = prevent_10yr_HF (calculatePreventRisk scenario_A)
  /\ prevent_30yr_HF (calculatePreventRisk scenario_B)
     = prevent_30yr_HF (calculatePreventRisk scenario_A).
Proof.
  exact (HF_independent_of_lipids scenario_B scenario_A scenario_A_B_lipids).
Defined.

(** * More of the engine *)

(** ** Which block nulls which score *)

Ltac split_conditions :=
  unfold when;
  repeat match goal with
  | |- context [if ?c then _ else _] => destruct c; cbv iota
  end.

Lemma missing_variable_checks_fields (p : PreventInputs) (r : PreventResults) :
  let lipids :=
    tc_rejected p || hdl_rejected p || sbp_rejected p || egfr_rejected p
    || statin_rejected p in
  let hf := sbp_rejected p || egfr_rejected p || bmi_rejected p in
  missing_variable_checks p r
  = mkResults
      (if lipids then None else prevent_10yr_CVD r)
      (if lipids then None else prevent_30yr_CVD r)
      (if lipids then None else prevent_10yr_ASCVD r)
      (if lipids then None else prevent_30yr_ASCVD r)
      (if hf then None else prevent_10yr_HF r)
      (if hf then None else prevent_30yr_HF r)
      (model r).
Proof.
  destruct p as [sx ag t h sb d sm bm eg bp st ua hb sd]; destruct r.
  unfold missing_variable_checks, tc_rejected, hdl_rejected, sbp_rejected,
    egfr_rejected, statin_rejected, bmi_rejected; cbv zeta.
  cbn [tc hdl sbp egfr statin bmi].
  generalize (falsy t || opt_lt t 130 || opt_gt t 320).
  generalize (falsy h || opt_lt h 20 || opt_gt h 100).
  generalize ((sb <? 90) || (sb >? 200)).
  generalize (eg <=? 0).
  generalize (negb (defined st)).
  generalize (falsy bm || opt_lt bm 18.5 || opt_ge bm 40).
  intros [] [] [] [] [] []; reflexivity.
Qed.

Lemma optional_variable_checks_fields (p : PreventInputs) (r : PreventResults) :
  optional_variable_checks p r
  = if optional_rejected p then null_all r else r.
Proof.
  destruct p as [sx ag t h sb d sm bm eg bp st ua hb sd]; destruct r.
  unfold optional_variable_checks, optional_rejected; cbv zeta.
  cbn [uacr hba1c sdi].
  generalize (defined ua && opt_lt ua 0).
  generalize (defined hb && opt_le hb 0).
  generalize (defined sd && (opt_lt sd 1 || opt_gt sd 10)).
  intros [] [] []; reflexivity.
Qed.

(** ** The conditions of the blocks against the documented ranges *)

Lemma sex_rejected_false (p : PreventInputs) :
  sex_rejected p = false <-> valid_sex p.
Proof.
  unfold sex_rejected, valid_sex; split.
  - intros H; destruct (Req_dec_T (sex p) 0) as [E|E]; [left; exact E|].
    destruct (Req_dec_T (sex p) 1) as [E1|E1]; [right; exact E1|].
    exfalso; revert H; cases_on_order.
  - apply sex_guard.
Qed.

Lemma age_rejected_false (p : PreventInputs) :
  age_rejected p = false <-> valid_age p.
Proof.
  unfold age_rejected, valid_age; split.
  - intros H; split.
    + destruct (Rle_dec 30 (age p)) as [E|E]; [exact E|].
      exfalso; revert H; cases_on_order.
    + destruct (Rle_dec (age p) 79) as [E|E]; [exact E|].
      exfalso; revert H; cases_on_order.
  - apply age_guard.
Qed.

Lemma range_check_false (x : option R) (lo hi : R) :
  0 < lo ->
  falsy x || opt_lt x lo || opt_gt x hi = false <-> present_within x lo hi.
Proof.
  intros Hlo; unfold present_within; split.
  - destruct x as [v|]; [|discriminate].
    intros H; exists v; split; [reflexivity|].
    split.
    + destruct (Rle_dec lo v) as [E|E]; [exact E|].
      exfalso; revert H; cases_on_order.
    + destruct (Rle_dec v hi) as [E|E]; [exact E|].
      exfalso; revert H; cases_on_order.
  - intros (v & -> & H1 & H2); cases_on_order.
Qed.

Lemma tc_rejected_false (p : PreventInputs) :
  tc_rejected p = false <-> present_within (tc p) 130 320.
Proof. apply range_check_false; lra. Qed.

Lemma hdl_rejected_false (p : PreventInputs) :
  hdl_rejected p = false <-> present_within (hdl p) 20 100.
Proof. apply range_check_false; lra. Qed.

Lemma sbp_rejected_false (p : PreventInputs) :
  sbp_rejected p = false <-> 90 <= sbp p <= 200.
Proof.
  unfold sbp_rejected; split.
  - intros H; split.
    + destruct (Rle_dec 90 (sbp p)) as [E|E]; [exact E|].
      exfalso; revert H; cases_on_order.
    + destruct (Rle_dec (sbp p) 200) as [E|E]; [exact E|].
      exfalso; revert H; cases_on_order.
  - intros [H1 H2]; cases_on_order.
Qed.

Lemma egfr_rejected_false (p : PreventInputs) :
  egfr_rejected p = false <-> 0 < egfr p.
Proof. unfold egfr_rejected; apply Rleb_false. Qed.

Lemma statin_rejected_false (p : PreventInputs) :
  statin_rejected p = false <-> statin p <> None.
Proof.
  unfold statin_rejected; destruct (statin p); simpl; split;
    congruence.
Qed.

Lemma bmi_rejected_false (p : PreventInputs) :
  bmi_rejected p = false <-> bmi_valid p.
Proof.
  unfold bmi_rejected, bmi_valid; split.
  - destruct (bmi p) as [v|]; [|discriminate].
    intros H; exists v; split; [reflexivity|].
    split.
    + destruct (Rle_dec 18.5 v) as [E|E]; [exact E|].
      exfalso; revert H; cases_on_order.
    + destruct (Rlt_dec v 40) as [E|E]; [exact E|].
      exfalso; revert H; cases_on_order.
  - intros (v & -> & H1 & H2); cases_on_order.
Qed.

Lemma optional_rejected_false (p : PreventInputs) :
  optional_rejected p = false <-> ~ optional_out_of_range p.
Proof.
  unfold optional_rejected, optional_out_of_range; split.
  - intros H [(u & Hu & Hlt)|[(h & Hh & Hle)|(s & Hs & Hout)]];
      revert H; rewrite ?Hu, ?Hh, ?Hs; simpl.
    + assert (E : (u <? 0) = true) by (apply Rltb_true; exact Hlt).
      rewrite E; discriminate.
    + assert (E : (h <=? 0) = true) by (apply Rleb_true; exact Hle).
      rewrite E, orb_true_r; discriminate.
    + assert (E : (s <? 1) || (s >? 10) = true).
      { destruct Hout as [Hout|Hout];
          [apply (proj2 (Rltb_true _ _)) in Hout
          |apply (proj2 (Rgtb_true _ _)) in Hout];
          rewrite Hout; auto using orb_true_r. }
      rewrite E, orb_true_r; discriminate.
  - intros H.
    destruct (optional_rejected p) eqn:E;
      unfold optional_rejected in E; rewrite E; [exfalso|reflexivity].
    apply H; clear H.
    destruct (uacr p) as [u|], (hba1c p) as [h|], (sdi p) as [s|];
      simpl in E;
      repeat match type of E with
      | context [?a <? ?b] =>
          let C := fresh "C" in destruct (a <? b) eqn:C;
          [apply Rltb_true in C|apply Rltb_false in C]
      | context [?a <=? ?b] =>
          let C := fresh "C" in destruct (a <=? b) eqn:C;
          [apply Rleb_true in C|apply Rleb_false in C]
      | context [?a >? ?b] =>
          let C := fresh "C" in destruct (a >? b) eqn:C;
          [apply Rgtb_true in C|apply Rgtb_false in C]
      end; simpl in E; try discriminate;
      eauto 8.
Qed.

(** ** The result of a call, score by score *)

Lemma calculatePreventRisk_shape (p : PreventInputs) :
  exists a b c d e f : R,
    calculatePreventRisk p
    = let full := defined (uacr p) || defined (hba1c p) || defined (sdi p) in
      let entered :=
        negb (sex_rejected p) && negb (age_rejected p)
        && negb (full && optional_rejected p) in
      let lipids :=
        entered
        && negb (tc_rejected p || hdl_rejected p || sbp_rejected p
                 || egfr_rejected p || statin_rejected p) in
      let hf :=
        entered
        && negb (sbp_rejected p || egfr_rejected p || bmi_rejected p) in
      let young := age p <=? 59 in
      mkResults
        (if lipids then Some (percent a) else None)
        (if lipids && young then Some (percent b) else None)
        (if lipids then Some (percent c) else None)
        (if lipids && young then Some (percent d) else None)
        (if hf then Some (percent e) else None)
        (if hf && young then Some (percent f) else None)
        (if full then Full else Base).
Proof.
  unfold calculatePreventRisk, preventBase, preventFull; cbv zeta.
  fold (sex_rejected p) (age_rejected p).
  rewrite !optional_variable_checks_fields, !missing_variable_checks_fields.
  cbv zeta; unfold converted, null_all; simpl.
  destruct (defined (uacr p) || defined (hba1c p) || defined (sdi p));
    destruct (sex_rejected p); simpl;
    try (exists 0, 0, 0, 0, 0, 0; reflexivity);
    destruct (age_rejected p); simpl;
    try (exists 0, 0, 0, 0, 0, 0; reflexivity);
    destruct (optional_rejected p); simpl;
    try (exists 0, 0, 0, 0, 0, 0; reflexivity);
    destruct (age p <=? 59);
    destruct (tc_rejected p || hdl_rejected p || sbp_rejected p
              || egfr_rejected p || statin_rejected p);
    destruct (sbp_rejected p || egfr_rejected p || bmi_rejected p);
    simpl; eexists _, _, _, _, _, _; reflexivity.
  Unshelve. all: exact 0.
Qed.

Lemma lipids_accepted (p : PreventInputs) :
  negb (sex_rejected p) && negb (age_rejected p)
  && negb ((defined (uacr p) || defined (hba1c p) || defined (sdi p))
           && optional_rejected p)
  && negb (tc_rejected p || hdl_rejected p || sbp_rejected p
           || egfr_rejected p || statin_rejected p) = true
  <-> required_valid p /\ lipids_valid p /\ ~ optional_out_of_range p.
Proof.
  unfold required_valid, lipids_valid.
  rewrite <- sex_rejected_false, <- age_rejected_false, <- tc_rejected_false,
    <- hdl_rejected_false, <- sbp_rejected_false, <- egfr_rejected_false,
    <- statin_rejected_false, <- optional_rejected_false.
  assert (Hopt : optional_rejected p = true ->
                 defined (uacr p) || defined (hba1c p) || defined (sdi p) = true).
  { unfold optional_rejected.
    destruct (uacr p), (hba1c p), (sdi p); simpl; auto. }
  destruct (optional_rejected p) eqn:O;
    [rewrite (Hopt eq_refl)
    |destruct (defined (uacr p) || defined (hba1c p) || defined (sdi p))];
    destruct (sex_rejected p), (age_rejected p), (tc_rejected p),
      (hdl_rejected p), (sbp_rejected p), (egfr_rejected p),
      (statin_rejected p); simpl; intuition congruence.
Qed.

Lemma hf_accepted (p : PreventInputs) :
  negb (sex_rejected p) && negb (age_rejected p)
  && negb ((defined (uacr p) || defined (hba1c p) || defined (sdi p))
           && optional_rejected p)
  && negb (sbp_rejected p || egfr_rejected p || bmi_rejected p) = true
  <-> required_valid p /\ bmi_valid p /\ ~ optional_out_of_range p.
Proof.
  unfold required_valid.
  rewrite <- sex_rejected_false, <- age_rejected_false,
    <- sbp_rejected_false, <- egfr_rejected_false,
    <- bmi_rejected_false, <- optional_rejected_false.
  assert (Hopt : optional_rejected p = true ->
                 defined (uacr p) || defined (hba1c p) || defined (sdi p) = true).
  { unfold optional_rejected.
    destruct (uacr p), (hba1c p), (sdi p); simpl; auto. }
  destruct (optional_rejected p) eqn:O;
    [rewrite (Hopt eq_refl)
    |destruct (defined (uacr p) || defined (hba1c p) || defined (sdi p))];
    destruct (sex_rejected p), (age_rejected p), (sbp_rejected p),
      (egfr_rejected p), (bmi_rejected p); simpl; intuition congruence.
Qed.

Lemma some_or_none_not_none (b : bool) (x : R) :
  (if b then Some x else None) <> None <-> b = true.
Proof. destruct b; split; congruence. Qed.

(** X1. The 10-year CVD score and the 10-year ASCVD score of a call are
    non-null exactly when sex, age, sbp and egfr are valid, [tc] and [hdl]
    are present and in range, [statin] is defined, and no supplied optional
    variable is out of range. *)
Theorem CVD_ASCVD_10yr_computed_iff (p : PreventInputs) :
  (prevent_10yr_CVD (calculatePreventRisk p) <> None
   <-> required_valid p /\ lipids_valid p /\ ~ optional_out_of_range p)
  /\ (prevent_10yr_ASCVD (calculatePreventRisk p) <> None
      <-> required_valid p /\ lipids_valid p /\ ~ optional_out_of_range p).
Proof.
  destruct (calculatePreventRisk_shape p) as (a & b & c & d & e & f & ->).
  cbv zeta; simpl; rewrite !some_or_none_not_none.
  split; apply lipids_accepted.
Qed.

(** X2. The 10-year HF score of a call is non-null exactly when sex, age,
    sbp and egfr are valid, [bmi] is present in [18.5, 40), and no supplied
    optional variable is out of range. *)
Theorem HF_10yr_computed_iff (p : PreventInputs) :
  prevent_10yr_HF (calculatePreventRisk p) <> None
  <-> required_valid p /\ bmi_valid p /\ ~ optional_out_of_range p.
Proof.
  destruct (calculatePreventRisk_shape p) as (a & b & c & d & e & f & ->).
  cbv zeta; simpl; rewrite !some_or_none_not_none.
  apply hf_accepted.
Qed.

(** X3. For every input, each 30-year score is non-null exactly when the
    10-year score of the same endpoint is non-null and age is at most 59. *)
Theorem thirty_year_computed_iff (p : PreventInputs) :
  (prevent_30yr_CVD (calculatePreventRisk p) <> None
   <-> prevent_10yr_CVD (calculatePreventRisk p) <> None /\ age p <= 59)
  /\ (prevent_30yr_ASCVD (calculatePreventRisk p) <> None
      <-> prevent_10yr_ASCVD (calculatePreventRisk p) <> None /\ age p <= 59)
  /\ (prevent_30yr_HF (calculatePreventRisk p) <> None
      <-> prevent_10yr_HF (calculatePreventRisk p) <> None /\ age p <= 59).
Proof.
  destruct (calculatePreventRisk_shape p) as (a & b & c & d & e & f & ->).
  cbv zeta; simpl; rewrite !some_or_none_not_none, !andb_true_iff, !Rleb_true.
  tauto.
Qed.

(** ** Inputs a score does not read *)

(** Bring both sides of a statement about calls to the fields of their
    results, every block condition spelled on the input's fields. *)
Ltac expose_calls :=
  unfold calculatePreventRisk, preventBase, preventFull; cbv zeta;
  rewrite ?optional_variable_checks_fields, ?missing_variable_checks_fields;
  cbv zeta;
  unfold tc_rejected, hdl_rejected, sbp_rejected, egfr_rejected,
    statin_rejected, bmi_rejected, optional_rejected, converted, null_all,
    all_null;
  cbn [sex age tc hdl sbp dm smoking bmi egfr bptreat statin uacr hba1c sdi
       prevent_10yr_CVD prevent_30yr_CVD prevent_10yr_ASCVD
       prevent_30yr_ASCVD prevent_10yr_HF prevent_30yr_HF model].

Ltac split_ifs :=
  repeat match goal with
  | |- context [if ?c then _ else _] =>
      destruct c;
      cbn [prevent_10yr_CVD prevent_30yr_CVD prevent_10yr_ASCVD
           prevent_30yr_ASCVD prevent_10yr_HF prevent_30yr_HF model]
  end.

(** X4. [preventBase] never reads [uacr], [hba1c] or [sdi]: two inputs that
    differ only there get the same result from it. *)
Theorem preventBase_ignores_optional (p q : PreventInputs) :
  differ_only_in_optional p q -> preventBase p = preventBase q.
Proof.
  destruct p as [sx ag t h sb d sm bm eg bp st ua hb sd].
  destruct q as [sx' ag' t' h' sb' d' sm' bm' eg' bp' st' ua' hb' sd'].
  unfold differ_only_in_optional; simpl.
  intros (-> & -> & -> & -> & -> & -> & -> & -> & -> & -> & ->).
  expose_calls; split_ifs; reflexivity.
Qed.

Lemma preventBase_ignores_optional_witness :
  preventBase scenario_negative_uacr = preventBase scenario_A.
Proof.
  apply (preventBase_ignores_optional scenario_negative_uacr scenario_A).
  unfold differ_only_in_optional; simpl; repeat split.
Defined.

(** X5. The four CVD and ASCVD scores do not depend on [bmi]: two inputs
    that differ only in [bmi] get the same four scores. *)
Theorem CVD_ASCVD_independent_of_bmi (p q : PreventInputs) :
  differ_only_in_bmi p q ->
  prevent_10yr_CVD (calculatePreventRisk p)
    = prevent_10yr_CVD (calculatePreventRisk q)
  /\ prevent_30yr_CVD (calculatePreventRisk p)
     = prevent_30yr_CVD (calculatePreventRisk q)
  /\ prevent_10yr_ASCVD (calculatePreventRisk p)
     = prevent_10yr_ASCVD (calculatePreventRisk q)
  /\ prevent_30yr_ASCVD (calculatePreventRisk p)
     = prevent_30yr_ASCVD (calculatePreventRisk q).
Proof.
  destruct p as [sx ag t h sb d sm bm eg bp st ua hb sd].
  destruct q as [sx' ag' t' h' sb' d' sm' bm' eg' bp' st' ua' hb' sd'].
  unfold differ_only_in_bmi; simpl.
  intros (-> & -> & -> & -> & -> & -> & -> & -> & -> & -> & -> & -> & ->).
  expose_calls.
  generalize (falsy bm || opt_lt bm 18.5 || opt_ge bm 40).
  generalize (falsy bm' || opt_lt bm' 18.5 || opt_ge bm' 40).
  intros c c'.
  split_ifs; repeat split; reflexivity.
Qed.

Lemma CVD_ASCVD_independent_of_bmi_witness :
  prevent_10yr_CVD (calculatePreventRisk scenario_no_bmi)
  = prevent_10yr_CVD (calculatePreventRisk scenario_A).
Proof.
  apply (CVD_ASCVD_independent_of_bmi scenario_no_bmi scenario_A).
  unfold differ_only_in_bmi; simpl; repeat split.
Defined.

(** X6. Supplying, changing or removing optional variables that stay within
    their ranges never changes which scores are available: two inputs that
    differ only in [uacr], [hba1c], [sdi], none of them out of range, have
    null scores at the same places. *)
Theorem availability_unchanged_by_optional (p q : PreventInputs) :
  differ_only_in_optional p q ->
  ~ optional_out_of_range p -> ~ optional_out_of_range q ->
  same_nulls (calculatePreventRisk p) (calculatePreventRisk q).
Proof.
  intros (Hsex & Hage & Htc & Hhdl & Hsbp & _ & _ & Hbmi & Hegfr & _ & Hst)
         Hp Hq.
  apply optional_rejected_false in Hp, Hq.
  destruct (calculatePreventRisk_shape p) as (a & b & c & d & e & f & ->).
  destruct (calculatePreventRisk_shape q) as (a' & b' & c' & d' & e' & f' & ->).
  cbv zeta; rewrite Hp, Hq, !andb_false_r.
  unfold sex_rejected, age_rejected, tc_rejected, hdl_rejected, sbp_rejected,
    egfr_rejected, statin_rejected, bmi_rejected.
  rewrite Hsex, Hage, Htc, Hhdl, Hsbp, Hbmi, Hegfr, Hst.
  unfold same_nulls; simpl.
  repeat match goal with
  | |- context [if ?c then _ else _] => destruct c
  end; repeat split; intros; congruence.
Qed.

Lemma availability_unchanged_by_optional_witness :
  same_nulls (calculatePreventRisk (scenario_uacr 30))
             (calculatePreventRisk scenario_A).
Proof.
  apply (availability_unchanged_by_optional (scenario_uacr 30) scenario_A).
  - unfold differ_only_in_optional; simpl; repeat split.
  - intros [(u & Hu & Hlt)|[(h & Hh & _)|(s & Hs & _)]];
      try discriminate.
    simpl in Hu; injection Hu as <-; lra.
  - intros [(u & Hu & _)|[(h & Hh & _)|(s & Hs & _)]]; discriminate.
Defined.

(** ** The optional-variable terms of the full model *)

(** X7. The SDI term is a table on the tertile: for a supplied [sdi] it is
    [0] on deciles in [1,4) and outside [1,10], [coef1] on [4,7) and
    [coef2] on [7,10]; the constant for a missing value is used only when
    [sdi] is not supplied. *)
Theorem getSdiTerm_table (s coef1 coef2 missingCoef : R) :
  (1 <= s < 4 -> getSdiTerm (Some s) coef1 coef2 missingCoef = 0)
  /\ (4 <= s < 7 -> getSdiTerm (Some s) coef1 coef2 missingCoef = coef1)
  /\ (7 <= s <= 10 -> getSdiTerm (Some s) coef1 coef2 missingCoef = coef2)
  /\ (s < 1 \/ 10 < s -> getSdiTerm (Some s) coef1 coef2 missingCoef = 0).
Proof.
  unfold getSdiTerm, sdicat; cbv zeta.
  repeat split; intros H; cases_on_order; try destruct H; try lra.
Qed.

Lemma getSdiTerm_table_witness :
  getSdiTerm (Some 5) 0.1361989 0.2261596 0.1804508 = 0.1361989
  /\ getSdiTerm (Some 9) 0.1361989 0.2261596 0.1804508 = 0.2261596.
Proof.
  destruct (getSdiTerm_table 5 0.1361989 0.2261596 0.1804508)
    as (_ & Hmid & _).
  destruct (getSdiTerm_table 9 0.1361989 0.2261596 0.1804508)
    as (_ & _ & Hhigh & _).
  split; [apply Hmid; lra|apply Hhigh; lra].
Defined.

(** X8. On non-negative values [adjust] is the floor [max(uacr, 0.1)], so
    the logarithm of the UACR term is taken on at least [0.1]; [adjust] is
    idempotent and monotone on all reals. *)
Theorem adjust_floor (u u' : R) :
  (0 <= u -> adjust u = Rmax u 0.1 /\ 0.1 <= adjust u)
  /\ adjust (adjust u) = adjust u
  /\ (u <= u' -> adjust u <= adjust u').
Proof.
  split; [|split].
  - intros H; unfold adjust, Rmax; destruct (Rle_dec u 0.1);
      cases_on_order.
  - unfold adjust at 2; cases_on_order;
      unfold adjust; cases_on_order.
  - intros H; unfold adjust; cases_on_order.
Qed.

Lemma adjust_floor_witness :
  adjust 0.03 = Rmax 0.03 0.1 /\ adjust 0.03 <= adjust 2.
Proof.
  destruct (adjust_floor 0.03 2) as (Hfloor & _ & Hmono).
  split; [apply Hfloor; lra|apply Hmono; lra].
Defined.

(** ** Values of [sdi] and [uacr] the full model cannot tell apart *)

Lemma full_logor_congruence (p q : PreventInputs) :
  differ_only_in_uacr_sdi p q ->
  (forall c m, getUacrTerm (uacr p) c m = getUacrTerm (uacr q) c m) ->
  (forall c1 c2 m, getSdiTerm (sdi p) c1 c2 m = getSdiTerm (sdi q) c1 c2 m) ->
  (full_female_logor_10yr_CVD p = full_female_logor_10yr_CVD q
   /\ full_female_logor_30yr_CVD p = full_female_logor_30yr_CVD q
   /\ full_female_logor_10yr_ASCVD p = full_female_logor_10yr_ASCVD q
   /\ full_female_logor_30yr_ASCVD p = full_female_logor_30yr_ASCVD q
   /\ full_female_logor_10yr_HF p = full_female_logor_10yr_HF q
   /\ full_female_logor_30yr_HF p = full_female_logor_30yr_HF q)
  /\ (full_male_logor_10yr_CVD p = full_male_logor_10yr_CVD q
      /\ full_male_logor_30yr_CVD p = full_male_logor_30yr_CVD q
      /\ full_male_logor_10yr_ASCVD p = full_male_logor_10yr_ASCVD q
      /\ full_male_logor_30yr_ASCVD p = full_male_logor_30yr_ASCVD q
      /\ full_male_logor_10yr_HF p = full_male_logor_10yr_HF q
      /\ full_male_logor_30yr_HF p = full_male_logor_30yr_HF q).
Proof.
  destruct p as [sx ag t h sb d sm bm eg bp st ua hb sd].
  destruct q as [sx' ag' t' h' sb' d' sm' bm' eg' bp' st' ua' hb' sd'].
  unfold differ_only_in_uacr_sdi; simpl.
  intros (-> & -> & -> & -> & -> & -> & -> & -> & -> & -> & -> & ->) Hu Hs.
  unfold full_female_logor_10yr_CVD, full_female_logor_30yr_CVD,
    full_female_logor_10yr_ASCVD, full_female_logor_30yr_ASCVD,
    full_female_logor_10yr_HF, full_female_logor_30yr_HF,
    full_male_logor_10yr_CVD, full_male_logor_30yr_CVD,
    full_male_logor_10yr_ASCVD, full_male_logor_30yr_ASCVD,
    full_male_logor_10yr_HF, full_male_logor_30yr_HF.
  rewrite !Hu, !Hs; repeat split.
Qed.

Lemma calculatePreventRisk_congruence (p q : PreventInputs) :
  differ_only_in_uacr_sdi p q ->
  uacr p <> None -> uacr q <> None ->
  optional_rejected p = optional_rejected q ->
  (forall c m, getUacrTerm (uacr p) c m = getUacrTerm (uacr q) c m) ->
  (forall c1 c2 m, getSdiTerm (sdi p) c1 c2 m = getSdiTerm (sdi q) c1 c2 m) ->
  calculatePreventRisk p = calculatePreventRisk q.
Proof.
  intros H Hup Huq Hopt Hu Hs.
  destruct (full_logor_congruence p q H Hu Hs)
    as ((F1 & F2 & F3 & F4 & F5 & F6) & (M1 & M2 & M3 & M4 & M5 & M6)).
  destruct H as (Hsex & Hage & Htc & Hhdl & Hsbp & _ & _ & Hbmi & Hegfr & _
                 & Hst & _).
  unfold calculatePreventRisk, preventFull; cbv zeta.
  rewrite !optional_variable_checks_fields, !missing_variable_checks_fields.
  cbv zeta.
  unfold tc_rejected, hdl_rejected, sbp_rejected, egfr_rejected,
    statin_rejected, bmi_rejected.
  rewrite Hopt, Hsex, Hage, Htc, Hhdl, Hsbp, Hbmi, Hegfr, Hst,
    F1, F2, F3, F4, F5, F6, M1, M2, M3, M4, M5, M6.
  destruct (uacr p); [|congruence].
  destruct (uacr q); [|congruence].
  reflexivity.
Qed.

Lemma calculatePreventRisk_congruence_sdi (p q : PreventInputs) :
  differ_only_in_uacr_sdi p q ->
  uacr p = uacr q -> sdi p <> None -> sdi q <> None ->
  optional_rejected p = optional_rejected q ->
  (forall c1 c2 m, getSdiTerm (sdi p) c1 c2 m = getSdiTerm (sdi q) c1 c2 m) ->
  calculatePreventRisk p = calculatePreventRisk q.
Proof.
  intros H Hueq Hsp Hsq Hopt Hs.
  assert (Hu : forall c m, getUacrTerm (uacr p) c m = getUacrTerm (uacr q) c m)
    by (intros; rewrite Hueq; reflexivity).
  destruct (full_logor_congruence p q H Hu Hs)
    as ((F1 & F2 & F3 & F4 & F5 & F6) & (M1 & M2 & M3 & M4 & M5 & M6)).
  destruct H as (Hsex & Hage & Htc & Hhdl & Hsbp & _ & _ & Hbmi & Hegfr & _
                 & Hst & Hhb).
  unfold calculatePreventRisk, preventFull; cbv zeta.
  rewrite !optional_variable_checks_fields, !missing_variable_checks_fields.
  cbv zeta.
  unfold tc_rejected, hdl_rejected, sbp_rejected, egfr_rejected,
    statin_rejected, bmi_rejected.
  rewrite Hopt, Hsex, Hage, Htc, Hhdl, Hsbp, Hbmi, Hegfr, Hst,
    F1, F2, F3, F4, F5, F6, M1, M2, M3, M4, M5, M6.
  destruct (sdi p); [|congruence].
  destruct (sdi q); [|congruence].
  rewrite !orb_true_r; reflexivity.
Qed.

(** X9. The full model sees [sdi] only through its tertile: two inputs that
    differ only in [sdi], both supplied in [1,10] and in the same tertile,
    get the same result. *)
Theorem same_tertile_same_result (p q : PreventInputs) (s s' : R) :
  differ_only_in_uacr_sdi p q -> uacr p = uacr q ->
  sdi p = Some s -> sdi q = Some s' ->
  1 <= s <= 10 -> 1 <= s' <= 10 -> sdicat s = sdicat s' ->
  calculatePreventRisk p = calculatePreventRisk q.
Proof.
  intros H Hu Hp Hq Hs Hs' Ht.
  apply calculatePreventRisk_congruence_sdi; try assumption;
    try (rewrite ?Hp, ?Hq; discriminate).
  - unfold optional_rejected.
    destruct H as (_ & _ & _ & _ & _ & _ & _ & _ & _ & _ & _ & Hhb).
    rewrite Hu, Hhb, Hp, Hq; simpl.
    assert (E : (s <? 1) || (s >? 10) = false) by cases_on_order.
    assert (E' : (s' <? 1) || (s' >? 10) = false) by cases_on_order.
    rewrite E, E'; reflexivity.
  - intros c1 c2 m; rewrite Hp, Hq; unfold getSdiTerm; cbv zeta.
    rewrite Ht; reflexivity.
Qed.

Lemma same_tertile_same_result_witness :
  calculatePreventRisk (scenario_sdi 4) = calculatePreventRisk (scenario_sdi 6.5).
Proof.
  apply (same_tertile_same_result (scenario_sdi 4) (scenario_sdi 6.5) 4 6.5).
  - unfold differ_only_in_uacr_sdi; simpl; repeat split.
  - reflexivity.
  - reflexivity.
  - reflexivity.
  - lra.
  - lra.
  - unfold sdicat; cases_on_order.
Defined.

(** X10. Every [uacr] in [0, 0.1] is read as 0.1: two inputs that differ
    only in [uacr], both supplied in [0, 0.1], get the same result. *)
Theorem small_uacr_same_result (p q : PreventInputs) (u u' : R) :
  differ_only_in_uacr_sdi p q -> sdi p = sdi q ->
  uacr p = Some u -> uacr q = Some u' ->
  0 <= u <= 0.1 -> 0 <= u' <= 0.1 ->
  calculatePreventRisk p = calculatePreventRisk q.
Proof.
  intros H Hs Hp Hq Hu Hu'.
  apply calculatePreventRisk_congruence; try assumption;
    try (rewrite ?Hp, ?Hq; discriminate).
  - unfold optional_rejected.
    destruct H as (_ & _ & _ & _ & _ & _ & _ & _ & _ & _ & _ & Hhb).
    rewrite Hs, Hhb, Hp, Hq; simpl.
    assert (E : (u <? 0) = false) by cases_on_order.
    assert (E' : (u' <? 0) = false) by cases_on_order.
    rewrite E, E'; reflexivity.
  - intros c m; rewrite Hp, Hq; unfold getUacrTerm.
    assert (E : adjust u = 0.1) by (unfold adjust; cases_on_order).
    assert (E' : adjust u' = 0.1) by (unfold adjust; cases_on_order).
    rewrite E, E'; reflexivity.
  - intros c1 c2 m; rewrite Hs; reflexivity.
Qed.

Lemma small_uacr_same_result_witness :
  calculatePreventRisk (scenario_uacr 0) = calculatePreventRisk (scenario_uacr 0.1).
Proof.
  apply (small_uacr_same_result (scenario_uacr 0) (scenario_uacr 0.1) 0 0.1).
  - unfold differ_only_in_uacr_sdi; simpl; repeat split.
  - reflexivity.
  - reflexivity.
  - reflexivity.
  - lra.
  - lra.
Defined.

(** ** Smoking and diabetes raise the scores *)

Lemma percent_increasing (x y : R) : x < y -> percent x < percent y.
Proof.
  intros H; unfold percent.
  pose proof (exp_pos x) as Hx; pose proof (exp_pos y) as Hy.
  pose proof (exp_increasing x y H) as Hxy.
  apply Rmult_lt_reg_r with ((1 + exp x) * (1 + exp y)); [nra|].
  replace (100 * exp x / (1 + exp x) * ((1 + exp x) * (1 + exp y)))
    with (100 * exp x * (1 + exp y)) by (field; lra).
  replace (100 * exp y / (1 + exp y) * ((1 + exp x) * (1 + exp y)))
    with (100 * exp y * (1 + exp x)) by (field; lra).
  nra.
Qed.







Lemma score_lt_percent (c : bool) (x y : R) :
  (c = true -> x < y) ->
  score_lt (if c then Some (percent x) else None)
           (if c then Some (percent y) else None).
Proof. destruct c; simpl; auto using percent_increasing. Qed.







(** ** Albuminuria and glycated haemoglobin raise the scores *)








(** * Risk interpretation and the results view *)


(** X14. Except for the 10-year ASCVD score, the label of [interpretRisk]
    is a function of the level of [getRiskLevel]. *)
Theorem label_follows_level (risk : option R) (type : RiskType)
    (timeframe : Timeframe) :
  is_ASCVD type && is_10yr timeframe = false ->
  interpretRisk risk type timeframe
  = match getRiskLevel risk with
    | unavailable => "Não calculável com os dados fornecidos"
    | low => "Baixo risco"
    | moderate => "Risco intermediário baixo"
    | high => "Risco intermediário alto"
    | very_high => "Alto risco"
    end%string.
Proof.
  intros H; destruct risk as [v|]; [|reflexivity].
  unfold interpretRisk, getRiskLevel; rewrite H.
  destruct (v <? 5); [reflexivity|].
  destruct (v <? 10); [reflexivity|].
  destruct (v <? 20); reflexivity.
Qed.

Lemma label_follows_level_witness :
  interpretRisk (Some 12) HF Y10yr = "Risco intermediário alto"%string
  /\ getRiskLevel (Some 12) = high.
Proof.
  assert (L : getRiskLevel (Some 12) = high)
    by (unfold getRiskLevel; cases_on_order).
  split; [|exact L].
  rewrite (label_follows_level (Some 12) HF Y10yr eq_refl), L; reflexivity.
Defined.

(** X15. The label "Alto risco" means two different bands: for the 10-year
    ASCVD score it is given exactly to risks in [7.5, 20), for every other
    score exactly to risks of 20 and more. *)
Theorem alto_risco_bands (risk : option R) (type : RiskType)
    (timeframe : Timeframe) :
  interpretRisk risk type timeframe = "Alto risco"%string
  <-> exists v, risk = Some v
        /\ if is_ASCVD type && is_10yr timeframe
           then 7.5 <= v < 20 else 20 <= v.
Proof.
  unfold interpretRisk; destruct risk as [v|].
  - destruct (is_ASCVD type && is_10yr timeframe); split.
    + intros H; exists v; split; [reflexivity|].
      revert H; cases_on_order; discriminate.
    + intros (w & [= <-] & H); cases_on_order.
    + intros H; exists v; split; [reflexivity|].
      revert H; cases_on_order; discriminate.
    + intros (w & [= <-] & H); cases_on_order.
  - split; [discriminate|intros (w & H & _); discriminate].
Qed.

(** * The form *)

Lemma truthy_true (s : string) : App.truthy s = true <-> s <> ""%string.
Proof.
  unfold App.truthy; destruct (String.eqb_spec s ""); simpl; split;
    congruence.
Qed.

Lemma truthy_false (s : string) : App.truthy s = false <-> s = ""%string.
Proof.
  unfold App.truthy; destruct (String.eqb_spec s ""); simpl; split;
    congruence.
Qed.

Lemma push_if_nil (c : bool) (msg : string) (l : list string) :
  App.push_if c msg l = [] <-> c = false /\ l = [].
Proof.
  unfold App.push_if; destruct c; split.
  - intros H; destruct l; discriminate.
  - intros [H _]; discriminate.
  - intros H; split; [reflexivity|exact H].
  - intros [_ H]; exact H.
Qed.

Lemma required_check (s : string) :
  negb (App.truthy s) = false <-> s <> ""%string.
Proof. rewrite negb_false_iff; apply truthy_true. Qed.

Lemma range_check (s : string) (x lo hi : R) :
  App.truthy s && ((x <? lo) || (x >? hi)) = false
  <-> (s <> ""%string -> lo <= x <= hi).
Proof.
  rewrite <- truthy_true; destruct (App.truthy s); simpl; split.
  - intros H _; revert H; cases_on_order.
  - intros H; specialize (H eq_refl); cases_on_order.
  - intros _ H; discriminate.
  - reflexivity.
Qed.

Lemma bmi_check (s : string) (x : R) :
  App.truthy s && ((x <? 18.5) || (x >=? 40)) = false
  <-> (s <> ""%string -> 18.5 <= x < 40).
Proof.
  rewrite <- truthy_true; destruct (App.truthy s); simpl; split.
  - intros H _; revert H; cases_on_order.
  - intros H; specialize (H eq_refl); cases_on_order.
  - intros _ H; discriminate.
  - reflexivity.
Qed.

Lemma positive_check (s : string) (x : R) :
  App.truthy s && (x <=? 0) = false <-> (s <> ""%string -> 0 < x).
Proof.
  rewrite <- truthy_true; destruct (App.truthy s); simpl; split.
  - intros H _; revert H; cases_on_order.
  - intros H; specialize (H eq_refl); cases_on_order.
  - intros _ H; discriminate.
  - reflexivity.
Qed.

Lemma nonnegative_check (s : string) (x : R) :
  App.truthy s && (x <? 0) = false <-> (s <> ""%string -> 0 <= x).
Proof.
  rewrite <- truthy_true; destruct (App.truthy s); simpl; split.
  - intros H _; revert H; cases_on_order.
  - intros H; specialize (H eq_refl); cases_on_order.
  - intros _ H; discriminate.
  - reflexivity.
Qed.

Lemma validateInputs_nil (Number : string -> R) (inputs : App.PreventInputs) :
  App.validateInputs Number inputs = [] <-> form_valid Number inputs.
Proof.
  unfold App.validateInputs, form_valid; cbv zeta.
  rewrite !push_if_nil, !required_check, !range_check, bmi_check,
    !positive_check, nonnegative_check.
  intuition.
Qed.

(** X16. [validateInputs] reports no error exactly when the seven required
    fields are filled and every filled field converts to a number in its
    range; the value of [sex] itself and the field [statin] are not
    checked. *)
Theorem validateInputs_accepts_iff (Number : string -> R)
    (inputs : App.PreventInputs) :
  App.validateInputs Number inputs = [] <-> form_valid Number inputs.
Proof. apply validateInputs_nil. Qed.











